(** * Accounts-payable reconciliation: statement total, ledger balances and
      the threshold-gated variance investigation

    A shallow embedding of [src/recon_ap.py] and
    [src/variance_investigator.py], and the properties of the specification
    checked against it.

    Conventions of the embedding.
    - A Python [str] is a [string]; each character is read as the code
      point 0..255 it carries, so that the character classes of the Python
      builtins ([isdigit], [isspace], [lower], line boundaries) are those
      of that range.
    - A Python [float] is an IEEE 754 binary64 value: a [spec_float] of the
      standard library, with precision 53 and maximal exponent 1024. The
      arithmetic, the comparisons and the reading of a decimal round as the
      machine does; NaN, the infinities and the sign of zero are values.
    - A call that can raise returns a [result]; [try]/[except] is a match
      on it. *)

From Stdlib Require Import Ascii String QArith SpecFloat.
From stdpp Require Import gmap strings list.

Local Close Scope Q_scope.
Local Open Scope string_scope.
Local Open Scope bool_scope.

#[local] Set Warnings "-abstract-large-number".

(** ** Exceptions *)

Inductive exn : Type :=
  | ValueError
  | TypeError
  | KeyError
  | OSError
  | ZeroDivisionError
  | OverflowError
  | IllegalCharacterError.

Inductive result (A : Type) : Type :=
  | Ok (a : A)
  | Raise (e : exn).

Arguments Ok {A} a.
Arguments Raise {A} e.

#[global] Instance result_ret : MRet result := fun A a => Ok a.

#[global] Instance result_bind : MBind result := fun A B k r =>
  match r with
  | Ok a => k a
  | Raise e => Raise e
  end.

(** ** Python builtins used by the two programs *)

Module Py.

(** *** Floats *)

Definition pyfloat : Type := spec_float.

Abbreviation NaN := S754_nan.
Abbreviation Inf := S754_infinity.

(** The float a decimal denotes, in a literal of the program, in a string
    given to [float] or in a number cell of a workbook: the float nearest
    to the rational [q], the one with an even mantissa when two are as
    near. It is the quotient of two integers, rounded once; a decimal
    beyond the largest float reads as an infinity, one below half the
    smallest float as zero. *)
Definition lit (q : Q) : pyfloat :=
  match Qnum q with
  | Z0 => S754_zero false
  | Zpos n =>
      SFdiv 53 1024 (S754_finite false n 0) (S754_finite false (Qden q) 0)
  | Zneg n =>
      SFdiv 53 1024 (S754_finite true n 0) (S754_finite false (Qden q) 0)
  end.

(** [-x] *)
Definition fneg (x : pyfloat) : pyfloat := SFopp x.

(** [abs(x)] *)
Definition fabs (x : pyfloat) : pyfloat := SFabs x.

(** [x <= y] *)
Definition fle (x y : pyfloat) : bool := SFleb x y.

(** [x > y] *)
Definition fgt (x y : pyfloat) : bool := SFltb y x.

(** [x != 0] *)
Definition fnonzero (x : pyfloat) : bool := negb (SFeqb x (S754_zero false)).

(** [x + y] *)
Definition fadd (x y : pyfloat) : pyfloat := SFadd 53 1024 x y.

(** [x - y] *)
Definition fsub (x y : pyfloat) : pyfloat := SFsub 53 1024 x y.

(** [x * y] *)
Definition fmul (x y : pyfloat) : pyfloat := SFmul 53 1024 x y.

(** The quotient of [x] by a divisor that is not zero. *)
Definition fquot (x y : pyfloat) : pyfloat := SFdiv 53 1024 x y.

(** [x / y]; a zero divisor raises. *)
Definition fdiv (x y : pyfloat) : result pyfloat :=
  if fnonzero y then Ok (fquot x y) else Raise ZeroDivisionError.

(** *** Characters *)

Definition ord (c : ascii) : nat := nat_of_ascii c.

Definition between (lo hi n : nat) : bool := (lo <=? n)%nat && (n <=? hi)%nat.

(** The white space [float] skips around a number: the ASCII blanks and
    the two blanks above 127; not the separators 28..31. *)
Definition chr_isfloatspace (c : ascii) : bool :=
  let n := ord c in
  between 9 13 n || (n =? 32)%nat || (n =? 133)%nat || (n =? 160)%nat.

(** ASCII decimal digit, the only digits [float] reads. *)
Definition chr_isdecimal (c : ascii) : bool := between 48 57 (ord c).

(** [ch.isdigit()]: the decimal digits and the superscripts 2, 3 and 1. *)
Definition chr_isdigit (c : ascii) : bool :=
  let n := ord c in
  between 48 57 n || (n =? 178)%nat || (n =? 179)%nat || (n =? 185)%nat.

(** [ch.isspace()] *)
Definition chr_isspace (c : ascii) : bool :=
  let n := ord c in
  between 9 13 n || between 28 32 n || (n =? 133)%nat || (n =? 160)%nat.

(** Line boundaries of [str.splitlines]. *)
Definition chr_islinebreak (c : ascii) : bool :=
  let n := ord c in
  between 10 13 n || between 28 30 n || (n =? 133)%nat.

(** [ch.lower()] *)
Definition chr_lower (c : ascii) : ascii :=
  let n := ord c in
  if between 65 90 n || (between 192 222 n && negb (n =? 215)%nat)
  then ascii_of_nat (n + 32) else c.

(** *** Strings *)

Fixpoint str_map (f : ascii -> ascii) (s : string) : string :=
  match s with
  | EmptyString => EmptyString
  | String c r => String (f c) (str_map f r)
  end.

Fixpoint str_keep (f : ascii -> bool) (s : string) : string :=
  match s with
  | EmptyString => EmptyString
  | String c r => if f c then String c (str_keep f r) else str_keep f r
  end.

Fixpoint str_all (f : ascii -> bool) (s : string) : bool :=
  match s with
  | EmptyString => true
  | String c r => f c && str_all f r
  end.

Fixpoint str_any (f : ascii -> bool) (s : string) : bool :=
  match s with
  | EmptyString => false
  | String c r => f c || str_any f r
  end.

Definition nonempty (s : string) : bool :=
  match s with
  | EmptyString => false
  | String _ _ => true
  end.

(** [s.lower()] *)
Definition lower (s : string) : string := str_map chr_lower s.

(** [s.replace(c, "")] for a one-character [c] *)
Definition remove (c : ascii) (s : string) : string :=
  str_keep (fun ch => negb (Ascii.eqb ch c)) s.

(** [s.isdigit()] *)
Definition isdigit (s : string) : bool := nonempty s && str_all chr_isdigit s.

(** [s.startswith(p)] *)
Fixpoint startswith (p s : string) : bool :=
  match p, s with
  | EmptyString, _ => true
  | String a p', String b s' => Ascii.eqb a b && startswith p' s'
  | String _ _, EmptyString => false
  end.

(** [needle in hay] *)
Fixpoint contains (needle hay : string) : bool :=
  startswith needle hay ||
  match hay with
  | EmptyString => false
  | String _ r => contains needle r
  end.

Fixpoint lstrip_with (space : ascii -> bool) (s : string) : string :=
  match s with
  | EmptyString => EmptyString
  | String c r => if space c then lstrip_with space r else s
  end.

Fixpoint str_rev (acc s : string) : string :=
  match s with
  | EmptyString => acc
  | String c r => str_rev (String c acc) r
  end.

Definition strip_with (space : ascii -> bool) (s : string) : string :=
  str_rev EmptyString
    (lstrip_with space (str_rev EmptyString (lstrip_with space s))).

(** [s.strip()] *)
Definition strip (s : string) : string := strip_with chr_isspace s.

(** [s.split()]: the maximal runs of non-space characters. [cur] is the
    run being read. *)
Fixpoint split_from (cur s : string) : list string :=
  match s with
  | EmptyString => if nonempty cur then [cur] else []
  | String c r =>
      if chr_isspace c
      then (if nonempty cur then cur :: split_from EmptyString r
            else split_from EmptyString r)
      else split_from (cur ++ String c EmptyString) r
  end.

Definition split (s : string) : list string := split_from EmptyString s.

(** [s.splitlines()]: a carriage return followed by a line feed is one
    boundary; a boundary at the very end opens no further line. *)
Fixpoint splitlines_from (cur s : string) : list string :=
  match s with
  | EmptyString => if nonempty cur then [cur] else []
  | String c r =>
      if chr_islinebreak c
      then cur :: splitlines_from EmptyString
                    (match r with
                     | String c' r' =>
                         if (ord c =? 13)%nat && (ord c' =? 10)%nat then r' else r
                     | EmptyString => r
                     end)
      else splitlines_from (cur ++ String c EmptyString) r
  end.

Definition splitlines (s : string) : list string := splitlines_from EmptyString s.

(** *** [float(s)] for a string

    The grammar is the one of the builtin: surrounding white space, a sign,
    then [inf], [infinity] or [nan] in any case, or a decimal number with an
    optional fraction and exponent, single underscores allowed between
    digits. *)

Definition digit_val (c : ascii) : option N :=
  if chr_isdecimal c then Some (N.of_nat (ord c - 48)) else None.

(** The rest of a digit part, after [cnt] digits of value [acc]. *)
Fixpoint digits_tail (acc : N) (cnt : nat) (s : string) : N * nat * string :=
  match s with
  | EmptyString => (acc, cnt, s)
  | String c r =>
      match digit_val c with
      | Some d => digits_tail (10 * acc + d)%N (S cnt) r
      | None =>
          if Ascii.eqb c "_" then
            match r with
            | String c' r' =>
                match digit_val c' with
                | Some d => digits_tail (10 * acc + d)%N (S cnt) r'
                | None => (acc, cnt, s)
                end
            | EmptyString => (acc, cnt, s)
            end
          else (acc, cnt, s)
      end
  end.

Definition digitpart (s : string) : option (N * nat * string) :=
  match s with
  | EmptyString => None
  | String c r =>
      match digit_val c with
      | Some d => Some (digits_tail d 1 r)
      | None => None
      end
  end.

(** The exponent part: nothing, or [e], an optional sign and digits, up to
    the end of the string. *)
Definition exponent (s : string) : option Z :=
  match s with
  | EmptyString => Some 0%Z
  | String c r =>
      if Ascii.eqb c "e" || Ascii.eqb c "E" then
        let '(neg, r) :=
          match r with
          | String c' r' =>
              if Ascii.eqb c' "-" then (true, r')
              else if Ascii.eqb c' "+" then (false, r') else (false, r)
          | EmptyString => (false, r)
          end in
        match digitpart r with
        | Some (v, _, EmptyString) =>
            Some (if neg then (- Z.of_N v)%Z else Z.of_N v)
        | _ => None
        end
      else None
  end.

(** [m * 10^e], exactly *)
Definition scale10 (m : N) (e : Z) : Q :=
  if (0 <=? e)%Z then Qmake (Z.of_N m * 10 ^ e)%Z 1
  else Qmake (Z.of_N m) (Pos.pow 10 (Z.to_pos (- e))).

Definition parse_number (s : string) : option Q :=
  let '(ip, s1) :=
    match digitpart s with
    | Some (v, _, r) => (Some v, r)
    | None => (None, s)
    end in
  let '(fp, s2) :=
    match s1 with
    | String c r =>
        if Ascii.eqb c "." then
          match digitpart r with
          | Some (v, n, r') => (Some (v, n), r')
          | None => (None, r)
          end
        else (None, s1)
    | EmptyString => (None, s1)
    end in
  match ip, fp with
  | None, None => None
  | _, _ =>
      let i := default 0%N ip in
      let '(f, n) := default (0%N, 0%nat) fp in
      match exponent s2 with
      | Some e => Some (scale10 (i * 10 ^ N.of_nat n + f)%N (e - Z.of_nat n)%Z)
      | None => None
      end
  end.

Definition float_of_str (s : string) : result pyfloat :=
  let t := strip_with chr_isfloatspace s in
  let '(neg, body) :=
    match t with
    | String c r =>
        if Ascii.eqb c "-" then (true, r)
        else if Ascii.eqb c "+" then (false, r) else (false, t)
    | EmptyString => (false, t)
    end in
  let w := lower body in
  if String.eqb w "inf" || String.eqb w "infinity" then Ok (Inf neg)
  else if String.eqb w "nan" then Ok NaN
  else match parse_number body with
       | Some q => Ok (if neg then fneg (lit q) else lit q)
       | None => Raise ValueError
       end.

End Py.

Import Py.

(** ** [recon_ap.py] *)

Module ReconAp.

Definition AP_ACCOUNT_CODE : string := "2000".

(** Fallback if no total can be read from the statement. *)
Definition EXPECTED_SUPPLIER_TOTAL : pyfloat := lit 125000.

(** *** [extract_total_from_statement] *)

(** ["balance" in line.lower() or "total" in line.lower()] *)
Definition mentions_total (line : string) : bool :=
  contains "balance" (lower line) || contains "total" (lower line).

(** The digits, points and commas of a word, commas then removed. *)
Definition clean (word : string) : string :=
  remove ","
    (str_keep (fun ch => chr_isdigit ch || Ascii.eqb ch "." || Ascii.eqb ch ",")
       word).

(** [word_clean and word_clean.replace(".", "").isdigit()] *)
Definition number_like (word_clean : string) : bool :=
  nonempty word_clean && isdigit (remove "." word_clean).

(** The inner loop of the first search, over the words in the order they
    are visited: [Some r] when the function returns (or raises) there. *)
Fixpoint last_amount (words : list string) : option (result pyfloat) :=
  match words with
  | [] => None
  | word :: rest =>
      let word_clean := clean word in
      if number_like word_clean then Some (float_of_str word_clean)
      else last_amount rest
  end.

(** The first search, over the lines in the order they are visited. *)
Fixpoint labeled_total (lines : list string) : option (result pyfloat) :=
  match lines with
  | [] => None
  | line :: rest =>
      if mentions_total line then
        match last_amount (rev (split line)) with
        | Some r => Some r
        | None => labeled_total rest
        end
      else labeled_total rest
  end.

(** The [numbers] list of the second search. *)
Fixpoint numbers_of (words : list string) : result (list pyfloat) :=
  match words with
  | [] => Ok []
  | word :: rest =>
      let clean_word := clean word in
      if number_like clean_word then
        x ← float_of_str clean_word; xs ← numbers_of rest; Ok (x :: xs)
      else numbers_of rest
  end.

(** [("$" in line or "balance" in line.lower()) and any digit in line] *)
Definition money_context (line : string) : bool :=
  (contains "$" line || contains "balance" (lower line))
  && str_any chr_isdecimal line.

(** The second search. *)
Fixpoint context_total (lines : list string) : option (result pyfloat) :=
  match lines with
  | [] => None
  | line :: rest =>
      if money_context line then
        match numbers_of (split line) with
        | Raise e => Some (Raise e)
        | Ok numbers =>
            match last numbers with
            | Some total => Some (Ok total)
            | None => context_total rest
            end
        end
      else context_total rest
  end.

(** [pdf_text] is the text pdfplumber extracts from the statement, [None]
    when the extraction raises. *)
Definition extract_total_from_statement (pdf_text : option string)
  : result pyfloat :=
  match pdf_text with
  | None => Ok EXPECTED_SUPPLIER_TOTAL
  | Some text =>
      let lines := splitlines text in
      match labeled_total (rev lines) with
      | Some r => r
      | None =>
          match context_total lines with
          | Some r => r
          | None => Ok EXPECTED_SUPPLIER_TOTAL
          end
      end
  end.

(** *** [filter_ap_activity] *)

Record Timestamp : Type := { year : Z; month : nat; day : nat }.

(** A ledger row after [astype(str)] on the account code and
    [to_datetime(errors='coerce')] on the date: an unparsable date is
    [None] (NaT). The amounts are the floats of the two float64 columns,
    NaN for an empty cell. *)
Record LedgerRow : Type := {
  date : option Timestamp;
  account_code : string;
  credit : pyfloat;
  debit : pyfloat
}.

(** [df["month"] == m]; the month of NaT compares unequal to every [m]. *)
Definition in_month (m : nat) (row : LedgerRow) : bool :=
  match date row with
  | Some d => (month d =? m)%nat
  | None => false
  end.

(** The sum numpy takes of a float64 column, in the order of its rounded
    additions. Fewer than 8 numbers are added to 0 from left to right. Up
    to 128 numbers are added in 8 interleaved partial sums, block of 8
    after block of 8; the partial sums are added in pairs, and the numbers
    after the last full block are added to the result one by one. A longer
    column is cut in two, the first part of [n / 2] numbers less the
    remainder of [n / 2] by 8, and the sums of the two parts are added. *)
Definition sum_left (acc : pyfloat) (xs : list pyfloat) : pyfloat :=
  foldl fadd acc xs.

Fixpoint block_sums (blocks : nat) (r xs : list pyfloat)
  : list pyfloat * list pyfloat :=
  match blocks with
  | 0 => (r, xs)
  | S blocks => block_sums blocks (zip_with fadd r (take 8 xs)) (drop 8 xs)
  end.

Definition sum_unrolled (xs : list pyfloat) : pyfloat :=
  let '(r, rest) := block_sums (length xs / 8 - 1) (take 8 xs) (drop 8 xs) in
  match r with
  | [r0; r1; r2; r3; r4; r5; r6; r7] =>
      sum_left
        (fadd (fadd (fadd r0 r1) (fadd r2 r3)) (fadd (fadd r4 r5) (fadd r6 r7)))
        rest
  | _ => sum_left (lit 0) xs
  end.

(** [fuel] bounds the depth of the cuts; the length of the column is
    enough. *)
Fixpoint pairwise_sum (fuel : nat) (xs : list pyfloat) : pyfloat :=
  let n := length xs in
  if (n <? 8)%nat then sum_left (lit 0) xs
  else if (n <=? 128)%nat then sum_unrolled xs
  else
    match fuel with
    | 0 => sum_unrolled xs
    | S fuel =>
        let n2 := (n / 2 - (n / 2) mod 8)%nat in
        fadd (pairwise_sum fuel (take n2 xs)) (pairwise_sum fuel (drop n2 xs))
    end.

(** [Series.sum()]: pandas puts 0 in the place of each NaN (skipna) and
    has numpy add the column up, starting from 0. *)
Definition series_sum (xs : list pyfloat) : pyfloat :=
  let values :=
    (fun x => match x with NaN => lit 0 | _ => x end) <$> xs in
  fadd (lit 0) (pairwise_sum (length values) values).

Definition month_balance (m : nat) (df : list LedgerRow) : pyfloat :=
  fsub (series_sum (credit <$> List.filter (in_month m) df))
       (series_sum (debit <$> List.filter (in_month m) df)).

Definition filter_ap_activity (df : list LedgerRow)
  : pyfloat * pyfloat * pyfloat :=
  let df :=
    List.filter (fun row => String.eqb (account_code row) AP_ACCOUNT_CODE) df in
  let aug := month_balance 8 df in
  let sep := month_balance 9 df in
  let movement := fsub sep aug in
  (aug, sep, movement).

End ReconAp.

(** ** [variance_investigator.py] *)

Module Investigator.

Definition THRESHOLD_PERCENT : pyfloat := lit 10.

(** *** The persisted report *)

(** The value of a worksheet cell; an empty cell has none. A number the
    file holds as an integer is an [int]; a number it holds with a point
    or an exponent is a float, given here by that decimal: the program
    sees the float the decimal denotes. *)
Inductive pyval : Type :=
  | VStr (s : string)
  | VInt (z : Z)
  | VNum (q : Q)
  | VBool (b : bool)
  | VDate.

(** A stored cell: a constant, or a formula (its text after the [=]) with
    the result the spreadsheet application computed last, if any. *)
Inductive cell : Type :=
  | Const (v : pyval)
  | Formula (body : string) (cached : option pyval).

(** A worksheet, by (row, column), both from 1. *)
Abbreviation sheet := (gmap (nat * nat) cell).

(** The file [EXCEL_FILE]: absent or unreadable, or a workbook, whose
    sheet "AP Reconciliation Summary" may be missing. The other sheets are
    not represented. *)
Inductive report : Type :=
  | NoWorkbook
  | Workbook (summary : option sheet).

(** What [load_workbook] keeps of a cell: with [data_only] the computed
    result in place of the formula, without it the formula alone. *)
Definition view (data_only : bool) (c : cell) : option cell :=
  match c with
  | Const _ => Some c
  | Formula body cached =>
      if data_only then Const <$> cached else Some (Formula body None)
  end.

(** [wb = load_workbook(EXCEL_FILE, data_only=...)] and then
    [ws = wb["AP Reconciliation Summary"]]. *)
Definition load_summary (data_only : bool) (f : report) : result sheet :=
  match f with
  | NoWorkbook => Raise OSError
  | Workbook None => Raise KeyError
  | Workbook (Some ws) => Ok (omap (view data_only) ws)
  end.

(** [wb.save(EXCEL_FILE)]. A sheet loaded without [data_only] carries no
    computed result, so none is left after it is saved. Opening the file
    for writing is taken to succeed, and a text to be read back as it was
    written. *)
Definition save (ws : sheet) : report := Workbook (Some ws).

Definition cell_value (c : cell) : pyval :=
  match c with
  | Const v => v
  | Formula body _ => VStr ("=" ++ body)
  end.

(** [ws[f"A{row}"].value], [ws[f"B{row}"].value]: columns 1 and 2. *)
Definition value (ws : sheet) (row col : nat) : option pyval :=
  cell_value <$> ws !! (row, col).

(** The characters openpyxl refuses in the text of a cell: the control
    characters other than tab, line feed and carriage return. *)
Definition chr_isillegal (c : ascii) : bool :=
  let n := ord c in
  between 0 8 n || between 11 12 n || between 14 31 n.

(** The check openpyxl runs on a text before it stores it
    ([Cell.check_string]): the text is cut to its first 32767 characters,
    and a refused character in what is left raises. *)
Definition check_string (s : string) : result string :=
  let s := String.substring 0 32767 s in
  if str_any chr_isillegal s then Raise IllegalCharacterError else Ok s.

(** The cell a value that passed the check is stored as: a string of more
    than one character that starts with [=] is a formula. *)
Definition store (v : pyval) : cell :=
  match v with
  | VStr (String c (String c' r)) =>
      if Ascii.eqb c "=" then Formula (String c' r) None else Const v
  | _ => Const v
  end.

(** The sheet once [v] is in the cell, [None] emptying it. *)
Definition assign (row col : nat) (v : option pyval) (ws : sheet) : sheet :=
  match v with
  | Some v => <[(row, col) := store v]> ws
  | None => delete (row, col) ws
  end.

(** [ws[...] = s] for a text [s]: the text is checked, then stored. *)
Definition assign_str (row col : nat) (s : string) (ws : sheet) : result sheet :=
  s ← check_string s; Ok (assign row col (Some (VStr s)) ws).

(** Truth value of a cell value. *)
Definition truthy (v : option pyval) : bool :=
  match v with
  | None => false
  | Some (VStr s) => nonempty s
  | Some (VInt z) => negb (z =? 0)%Z
  | Some (VNum q) => fnonzero (lit q)
  | Some (VBool b) => b
  | Some VDate => true
  end.

(** [float(v)]; an [int] beyond the floats raises. *)
Definition float_of (v : pyval) : result pyfloat :=
  match v with
  | VStr s => float_of_str s
  | VInt z =>
      match lit (inject_Z z) with
      | Inf _ => Raise OverflowError
      | x => Ok x
      end
  | VNum q => Ok (lit q)
  | VBool b => Ok (lit (if b then 1 else 0))
  | VDate => Raise TypeError
  end.

(** [v == s] for a string [s] *)
Definition is_str (s : string) (v : option pyval) : bool :=
  match v with
  | Some (VStr t) => String.eqb t s
  | _ => false
  end.

(** [v and "MoM % Change" in str(v)]. The text of a number, a boolean or
    a date has no such part. *)
Definition is_mom_label (v : option pyval) : bool :=
  match v with
  | Some (VStr s) => nonempty s && contains "MoM % Change" s
  | _ => false
  end.

(** [v and str(v).lower() == "reason"]. The text of a number, a boolean
    or a date is not that word. *)
Definition is_reason_label (v : option pyval) : bool :=
  match v with
  | Some (VStr s) => nonempty s && String.eqb (lower s) "reason"
  | _ => false
  end.

(** *** [read_mom_percentage] *)

(** [mom_percent.replace('%', '').strip()] when it is a string *)
Definition unpercent (v : pyval) : pyval :=
  match v with
  | VStr s => VStr (strip (remove "%" s))
  | _ => v
  end.

(** The first loop: [Some r] when the function returns (or raises) in it. *)
Fixpoint find_mom (ws : sheet) (rows : list nat) : option (result pyfloat) :=
  match rows with
  | [] => None
  | row :: rest =>
      if is_mom_label (value ws row 1) then
        match value ws row 2 with
        | Some mom_percent => Some (float_of (unpercent mom_percent))
        | None => find_mom ws rest
        end
      else find_mom ws rest
  end.

(** [float(cell_b.value) if cell_b.value else 0.0] *)
Definition balance_of (v : option pyval) : result pyfloat :=
  match v with
  | Some x => if truthy v then float_of x else Ok (lit 0)
  | None => Ok (lit 0)
  end.

(** The second loop, from the balances found so far. *)
Fixpoint read_balances (ws : sheet) (rows : list nat)
    (aug_balance sep_balance : option pyfloat)
  : result (option pyfloat * option pyfloat) :=
  match rows with
  | [] => Ok (aug_balance, sep_balance)
  | row :: rest =>
      let cell_a := value ws row 1 in
      let cell_b := value ws row 2 in
      if is_str "GL Balance August" cell_a then
        x ← balance_of cell_b; read_balances ws rest (Some x) sep_balance
      else if is_str "GL Balance September" cell_a then
        x ← balance_of cell_b; read_balances ws rest aug_balance (Some x)
      else read_balances ws rest aug_balance sep_balance
  end.

(** [((sep_balance - aug_balance) / aug_balance) * 100] *)
Definition percent_change (aug_balance sep_balance : pyfloat) : result pyfloat :=
  q ← fdiv (fsub sep_balance aug_balance) aug_balance; Ok (fmul q (lit 100)).

(** The second half of the [try]: the percentage calculated from the two
    balances of the sheet. *)
Definition calculate_manually (ws : sheet) : result pyfloat :=
  '(aug_balance, sep_balance) ← read_balances ws (seq 1 19) None None;
  match aug_balance, sep_balance with
  | Some a, Some b => if fnonzero a then percent_change a b else Ok (lit 0)
  | _, _ => Ok (lit 0)
  end.

(** The body of the [try]. *)
Definition read_mom_percentage_try (f : report) : result pyfloat :=
  ws ← load_summary true f;
  match find_mom ws (seq 1 19) with
  | Some r => r
  | None => ws ← load_summary false f; calculate_manually ws
  end.

Definition read_mom_percentage (f : report) : pyfloat :=
  match read_mom_percentage_try f with
  | Ok mom_percent => mom_percent
  | Raise _ => lit 0
  end.

(** *** [clear_previous_reason] and [update_excel_with_reason] *)

(** The first row of [rows] whose column A reads "reason". *)
Fixpoint find_reason (ws : sheet) (rows : list nat) : option nat :=
  match rows with
  | [] => None
  | row :: rest =>
      if is_reason_label (value ws row 1) then Some row
      else find_reason ws rest
  end.

Definition clear_previous_reason (f : report) : report :=
  match load_summary false f with
  | Ok ws =>
      save match find_reason ws (seq 1 49) with
           | Some row => assign row 2 None (assign row 1 None ws)
           | None => ws
           end
  | Raise _ => f
  end.

(** The last row of [rows] with data in column A, [last_row] if none. *)
Definition last_data_row (ws : sheet) (rows : list nat) (last_row : nat) : nat :=
  foldl (fun last_row row => if truthy (value ws row 1) then row else last_row)
    last_row rows.

(** The body of the [try]: the file as saved, unless a call raises
    before the save. *)
Definition update_excel_with_reason_try (reason : string) (f : report)
  : result report :=
  ws ← load_summary false f;
  ws ← match find_reason ws (seq 1 49) with
       | Some reason_row => assign_str reason_row 2 reason ws
       | None =>
           let last_row := last_data_row ws (seq 1 49) 1 in
           ws ← assign_str (last_row + 1) 1 "Reason" ws;
           assign_str (last_row + 1) 2 reason ws
       end;
  Ok (save ws).

(** An exception leaves the file as it was. *)
Definition update_excel_with_reason (reason : string) (f : report) : report :=
  match update_excel_with_reason_try reason f with
  | Ok f' => f'
  | Raise _ => f
  end.

(** *** [generate_investigation_reason] *)

(** What the narrative service is asked: the figures and the four texts
    gathered for the investigation. *)
Record prompt : Type := {
  percent : pyfloat;
  direction : string;
  summary_info : string;
  detail_info : string;
  sept_gl_info : string;
  email_content : string
}.

(** The answer of the service: a message, whose content may be empty or
    absent, or an exception, given by its text. *)
Inductive api_result : Type :=
  | Completion (content : option string)
  | ApiError (cause : string).

(** What a run does not own: the API key of the environment, the readers
    of the context (each returns a text, empty when its source cannot be
    read) and the narrative service. *)
Record world : Type := {
  OPENAI_API_KEY : option string;
  read_ap_summary : report -> string;
  read_reconciliation_detail : report -> string;
  read_september_gl_entries : string;
  read_emails_for_investigation : string;
  chat_completion : prompt -> api_result
}.

Definition has_key (w : world) : bool :=
  match OPENAI_API_KEY w with
  | Some k => nonempty k
  | None => false
  end.

(** The request of a run: the percentage, its direction and the texts,
    the e-mails cut to 1500 characters. *)
Definition build_prompt (mom_percent : pyfloat)
    (summary detail sept_gl emails : string) : prompt := {|
  percent := mom_percent;
  direction := if fgt mom_percent (lit 0) then "increase" else "decrease";
  summary_info := summary;
  detail_info := detail;
  sept_gl_info := sept_gl;
  email_content := String.substring 0 1500 emails
|}.

Definition generate_investigation_reason (w : world) (mom_percent : pyfloat)
    (summary detail sept_gl emails : string) : string :=
  if negb (has_key w) then
    "Error: OpenAI API key not found in environment variables"
  else
    match chat_completion w
            (build_prompt mom_percent summary detail sept_gl emails) with
    | Completion (Some content) =>
        if nonempty content then strip content
        else "No analysis could be generated from the provided data"
    | Completion None => "No analysis could be generated from the provided data"
    | ApiError cause =>
        "Unable to generate AI analysis due to API error: " ++ cause
    end.

(** *** [main] *)

(** How a run ends: without a narrative, or with the one it wrote. *)
Inductive outcome : Type :=
  | WithinThreshold
  | Investigated (reason : string).

Definition main_with (threshold : pyfloat) (w : world) (f : report)
  : report * outcome :=
  let f := clear_previous_reason f in
  let mom_percent := read_mom_percentage f in
  if fle (fabs mom_percent) threshold then (f, WithinThreshold)
  else
    let summary := read_ap_summary w f in
    let detail := read_reconciliation_detail w f in
    let sept_gl := read_september_gl_entries w in
    let emails := read_emails_for_investigation w in
    let reason :=
      generate_investigation_reason w mom_percent summary detail sept_gl emails in
    (update_excel_with_reason reason f, Investigated reason).

Definition main : world -> report -> report * outcome :=
  main_with THRESHOLD_PERCENT.

(** *** The report [recon_ap.py] writes *)

Definition built_summary (statement_total aug sep : Q) : sheet :=
  list_to_map [
    ((1, 1), Const (VStr "Item"));
    ((1, 2), Const (VStr "Amount"));
    ((2, 1), Const (VStr "Statement Closing Balance"));
    ((2, 2), Const (VNum statement_total));
    ((3, 1), Const (VStr "GL Balance August"));
    ((3, 2), Const (VNum aug));
    ((4, 1), Const (VStr "GL Balance September"));
    ((4, 2), Const (VNum sep));
    ((5, 1), Const (VStr "Movement MoM"));
    ((5, 2), Formula "B4-B3" None);
    ((6, 1), Const (VStr "Variance"));
    ((6, 2), Formula "B2-B4" None);
    ((7, 1), Const (VStr "MoM % Change"));
    ((7, 2), Formula "(B4-B3)/B3*100" None)
  ].

Definition build_excel (statement_total aug sep : Q) : report :=
  save (built_summary statement_total aug sep).

End Investigator.

(** * Properties *)

(** ** The statement total *)

Module ReconApFacts.
Import ReconAp.

Definition nl : string := String (ascii_of_nat 10) EmptyString.

Definition total_line : string := "Total Balance Due: $1,234.56".

(** A line is passed over by the first search when it names no total or
    none of its words is number-like. *)
Definition passed_over (line : string) : Prop :=
  mentions_total line = false \/ last_amount (rev (split line)) = None.

Lemma labeled_total_skip (skipped rest : list string) :
  Forall passed_over skipped ->
  labeled_total (skipped ++ rest)%list = labeled_total rest.
Proof.
  induction 1 as [|line skipped Hline _ IH]; [reflexivity|].
  cbn [app labeled_total].
  destruct Hline as [-> | Hnone]; [exact IH|].
  rewrite Hnone. destruct (mentions_total line); exact IH.
Qed.

Lemma total_line_amount :
  mentions_total total_line = true /\
  last_amount (rev (split total_line)) = Some (Ok (lit (Qmake 123456 100))).
Proof. split; vm_compute; reflexivity. Qed.

(** C1. On the one-line statement "Total 1.2.3" the word "1.2.3" passes
    the number test of the first search, its conversion raises, and
    [extract_total_from_statement] raises with it instead of returning a
    total; so it does on a total line that ends with a dotted date, and in
    the second search on a line with a dollar sign. *)
Theorem extract_total_raises_on_second_point :
  number_like (clean "1.2.3") = true /\
  float_of_str (clean "1.2.3") = Raise ValueError /\
  extract_total_from_statement (Some "Total 1.2.3") = Raise ValueError /\
  extract_total_from_statement (Some "Total due by 10.15.2025")
  = Raise ValueError /\
  extract_total_from_statement (Some "Paid $5 on 10.15.2025") = Raise ValueError.
Proof. repeat split; vm_compute; reflexivity. Qed.

(** C7, as stated, fails: a later line that names a balance wins. *)
Lemma extract_total_later_line_wins :
  let text := total_line ++ nl ++ "Balance carried forward: 99" in
  In total_line (splitlines text) /\
  extract_total_from_statement (Some text) = Ok (lit 99) /\
  lit 99 <> lit (Qmake 123456 100).
Proof.
  split; [left; vm_compute; reflexivity|].
  split; [vm_compute; reflexivity|].
  intros H. vm_compute in H. discriminate H.
Qed.

(** C7, amended. When the text has the line "Total Balance Due: $1,234.56"
    and every line after it is passed over by the first search, the first
    search returns 1234.56 from that line, and so does
    [extract_total_from_statement]. *)
Theorem extract_total_labeled_line (text : string) (before after : list string) :
  splitlines text = (before ++ total_line :: after)%list ->
  Forall passed_over after ->
  labeled_total (rev (splitlines text)) = Some (Ok (lit (Qmake 123456 100))) /\
  extract_total_from_statement (Some text) = Ok (lit (Qmake 123456 100)).
Proof.
  intros Hlines Hafter.
  assert (Hfirst : labeled_total (rev (splitlines text))
                   = Some (Ok (lit (Qmake 123456 100)))).
  { rewrite Hlines, rev_app_distr. cbn [rev]. rewrite <- !app_assoc.
    rewrite labeled_total_skip by (apply Forall_rev; exact Hafter).
    cbn [app labeled_total].
    destruct total_line_amount as [-> ->]. reflexivity. }
  split; [exact Hfirst|].
  unfold extract_total_from_statement. rewrite Hfirst. reflexivity.
Qed.

Lemma extract_total_labeled_line_witness :
  extract_total_from_statement
    (Some ("Opening balance 10" ++ nl ++ total_line ++ nl ++ "Thank you"))
  = Ok (lit (Qmake 123456 100)).
Proof.
  apply (extract_total_labeled_line _ ["Opening balance 10"] ["Thank you"]).
  - vm_compute. reflexivity.
  - constructor; [left; vm_compute; reflexivity | constructor].
Defined.

(** ** The ledger balances *)










Definition row_aug : LedgerRow :=
  {| date := Some {| year := 2025; month := 8; day := 31 |};
     account_code := "2000"; credit := lit 100000; debit := lit 0 |}.

Definition row_sep : LedgerRow :=
  {| date := Some {| year := 2025; month := 9; day := 30 |};
     account_code := "2000"; credit := lit 140000; debit := NaN |}.



End ReconApFacts.

(** ** The variance investigation *)

Module InvestigatorFacts.
Import Investigator.

(** *** Reading and writing cells *)

Lemma bind_Ok {A B : Type} (a : A) (k : A -> result B) : Ok a ≫= k = k a.
Proof. reflexivity. Qed.

Lemma cell_value_store (v : pyval) : cell_value (store v) = v.
Proof.
  destruct v as [s| | | |]; try reflexivity.
  destruct s as [|c [|c' r]]; try reflexivity.
  cbn [store]. destruct (Ascii.eqb c "=") eqn:E; [|reflexivity].
  apply Ascii.eqb_eq in E. subst c. reflexivity.
Qed.

Lemma value_view (ws : sheet) (row col : nat) :
  value (omap (view false) ws) row col = value ws row col.
Proof.
  unfold value. rewrite lookup_omap.
  destruct (ws !! (row, col)) as [[v|body cached]|]; reflexivity.
Qed.

Lemma value_assign_eq (ws : sheet) (row col : nat) (v : option pyval) :
  value (assign row col v ws) row col = v.
Proof.
  unfold value, assign. destruct v as [v|].
  - rewrite lookup_insert_eq. cbn. f_equal. apply cell_value_store.
  - rewrite lookup_delete_eq. reflexivity.
Qed.

Lemma value_assign_ne (ws : sheet) (row col row' col' : nat) (v : option pyval) :
  (row, col) <> (row', col') ->
  value (assign row col v ws) row' col' = value ws row' col'.
Proof.
  intros Hne. unfold value, assign. destruct v as [v|].
  - rewrite lookup_insert_ne by exact Hne. reflexivity.
  - rewrite lookup_delete_ne by exact Hne. reflexivity.
Qed.

(** *** The texts a workbook takes *)

(** A text the workbook stores as it is: of at most 32767 characters,
    none of them refused. *)
Definition storable (s : string) : Prop :=
  String.length s <= 32767 /\ str_any chr_isillegal s = false.

Lemma substring_all (n : nat) (s : string) :
  String.length s <= n -> String.substring 0 n s = s.
Proof.
  revert s. induction n as [|n IH]; intros [|c s] Hlen; try reflexivity.
  - cbn [String.length] in Hlen. lia.
  - cbn [String.length] in Hlen.
    change (String.substring 0 (S n) (String c s))
      with (String c (String.substring 0 n s)).
    rewrite IH by lia. reflexivity.
Qed.

Lemma check_string_storable (s : string) : storable s -> check_string s = Ok s.
Proof.
  intros [Hlen Hlegal]. unfold check_string.
  rewrite (substring_all _ s Hlen), Hlegal. reflexivity.
Qed.

Lemma check_string_Reason : check_string "Reason" = Ok "Reason".
Proof. vm_compute. reflexivity. Qed.

(** The sheet once a checked text is written as the Reason, and the sheet
    once the Reason is cleared. *)
Definition reason_written (text : string) (ws : sheet) : sheet :=
  match find_reason ws (seq 1 49) with
  | Some reason_row => assign reason_row 2 (Some (VStr text)) ws
  | None =>
      let last_row := last_data_row ws (seq 1 49) 1 in
      assign (last_row + 1) 2 (Some (VStr text))
        (assign (last_row + 1) 1 (Some (VStr "Reason")) ws)
  end.

Definition reason_cleared (ws : sheet) : sheet :=
  match find_reason ws (seq 1 49) with
  | Some row => assign row 2 None (assign row 1 None ws)
  | None => ws
  end.

(** [update_excel_with_reason] by cases: the sheet is loaded and the text
    accepted, the text is refused, the sheet cannot be loaded. *)
Lemma update_accepted (reason text : string) (f : report) (ws : sheet) :
  load_summary false f = Ok ws ->
  check_string reason = Ok text ->
  update_excel_with_reason reason f = save (reason_written text ws).
Proof.
  intros Hload Hcheck.
  unfold update_excel_with_reason, update_excel_with_reason_try, reason_written.
  rewrite Hload, bind_Ok.
  destruct (find_reason ws (seq 1 49)) as [row|]; unfold assign_str.
  - rewrite Hcheck, !bind_Ok. reflexivity.
  - rewrite check_string_Reason, !bind_Ok, Hcheck, !bind_Ok. reflexivity.
Qed.

Lemma update_refused (reason : string) (f : report) (e : exn) :
  check_string reason = Raise e ->
  update_excel_with_reason reason f = f.
Proof.
  intros Hcheck.
  unfold update_excel_with_reason, update_excel_with_reason_try.
  destruct (load_summary false f) as [ws|e']; [|reflexivity].
  rewrite bind_Ok.
  destruct (find_reason ws (seq 1 49)) as [row|]; unfold assign_str.
  - rewrite Hcheck. reflexivity.
  - rewrite check_string_Reason, !bind_Ok, Hcheck. reflexivity.
Qed.

Lemma update_unloaded (reason : string) (f : report) (e : exn) :
  load_summary false f = Raise e ->
  update_excel_with_reason reason f = f.
Proof.
  intros Hload.
  unfold update_excel_with_reason, update_excel_with_reason_try.
  rewrite Hload. reflexivity.
Qed.

(** *** The two scans of column A depend on its values alone *)

Lemma find_reason_labels (ws : sheet) (label : nat -> option pyval)
    (rows : list nat) :
  (forall row, value ws row 1 = label row) ->
  find_reason ws rows = List.find (fun row => is_reason_label (label row)) rows.
Proof.
  intros H. induction rows as [|row rows IH]; [reflexivity|].
  cbn [find_reason List.find]. rewrite H, IH. reflexivity.
Qed.

Lemma last_data_row_labels (ws : sheet) (label : nat -> option pyval)
    (rows : list nat) (last_row : nat) :
  (forall row, value ws row 1 = label row) ->
  last_data_row ws rows last_row
  = foldl (fun last_row row => if truthy (label row) then row else last_row)
      last_row rows.
Proof.
  intros H. unfold last_data_row. revert last_row.
  induction rows as [|row rows IH]; intros last_row; [reflexivity|].
  cbn [foldl]. rewrite H. apply IH.
Qed.

Lemma find_reason_some (ws : sheet) (rows : list nat) (row : nat) :
  find_reason ws rows = Some row ->
  In row rows /\ is_reason_label (value ws row 1) = true.
Proof.
  induction rows as [|r rows IH]; [discriminate|].
  cbn [find_reason]. destruct (is_reason_label (value ws r 1)) eqn:E.
  - intros [= <-]. split; [left; reflexivity | exact E].
  - intros H. destruct (IH H) as [Hin Hl]. split; [right; exact Hin | exact Hl].
Qed.

(** *** Reason entries of the report the pipeline writes *)

(** Row [row] of the summary is a Reason entry. *)
Definition is_reason_row (f : report) (row : nat) : bool :=
  match f with
  | Workbook (Some ws) => is_reason_label (value ws row 1)
  | _ => false
  end.

(** The text stored next to the label of row [row]. *)
Definition reason_text (f : report) (row : nat) : option pyval :=
  match f with
  | Workbook (Some ws) => value ws row 2
  | _ => None
  end.

Definition at_most_one_reason (f : report) : Prop :=
  forall r1 r2, is_reason_row f r1 = true -> is_reason_row f r2 = true -> r1 = r2.

(** The reports the pipeline can leave on disk: the one [recon_ap.py]
    builds, what the two writers of the investigation make of a reachable
    one, and a reachable one opened and saved by the spreadsheet
    application, which computes the formulas and leaves the contents. *)
Inductive reachable : report -> Prop :=
  | reach_build (statement_total aug sep : Q) :
      reachable (build_excel statement_total aug sep)
  | reach_clear (f : report) :
      reachable f -> reachable (clear_previous_reason f)
  | reach_update (reason : string) (f : report) :
      reachable f -> reachable (update_excel_with_reason reason f)
  | reach_recalculate (ws ws' : sheet) :
      reachable (Workbook (Some ws)) ->
      (forall row col, value ws' row col = value ws row col) ->
      reachable (Workbook (Some ws')).

(** Column A of the report as built. *)
Definition built_label (row : nat) : option pyval :=
  match row with
  | 1 => Some (VStr "Item")
  | 2 => Some (VStr "Statement Closing Balance")
  | 3 => Some (VStr "GL Balance August")
  | 4 => Some (VStr "GL Balance September")
  | 5 => Some (VStr "Movement MoM")
  | 6 => Some (VStr "Variance")
  | 7 => Some (VStr "MoM % Change")
  | _ => None
  end.

(** Column A once a Reason is written under the seven rows. *)
Definition explained_label (row : nat) : option pyval :=
  if (row =? 8)%nat then Some (VStr "Reason") else built_label row.

Definition column_a (label : nat -> option pyval) (f : report) : Prop :=
  exists ws, f = Workbook (Some ws) /\ forall row, value ws row 1 = label row.

Lemma built_label_no_reason (row : nat) :
  is_reason_label (built_label row) = false.
Proof. do 8 (destruct row as [|row]; [reflexivity|]). reflexivity. Qed.

Lemma explained_label_reason (row : nat) :
  is_reason_label (explained_label row) = true <-> row = 8.
Proof.
  unfold explained_label. destruct (Nat.eqb_spec row 8) as [->|Hne].
  - split; reflexivity.
  - rewrite built_label_no_reason. split; [discriminate | contradiction].
Qed.

Lemma column_a_built_no_reason (f : report) (r : nat) :
  column_a built_label f -> is_reason_row f r = false.
Proof.
  intros (ws & -> & Hlab). cbn [is_reason_row]. rewrite Hlab.
  apply built_label_no_reason.
Qed.

Lemma build_excel_column_a (statement_total aug sep : Q) :
  column_a built_label (build_excel statement_total aug sep).
Proof.
  eexists. split; [reflexivity|]. intros row. unfold value, built_summary.
  do 8 (destruct row as [|row]; [vm_compute; reflexivity|]).
  rewrite (not_elem_of_list_to_map_1 _ (S (S (S (S (S (S (S (S row))))))), 1));
    [reflexivity|].
  cbn [fmap list_fmap fst]. rewrite !not_elem_of_cons.
  repeat split; try congruence. apply not_elem_of_nil.
Qed.

Lemma clear_built (f : report) :
  column_a built_label f -> column_a built_label (clear_previous_reason f).
Proof.
  intros (ws & -> & Hws). unfold clear_previous_reason. cbn [load_summary].
  assert (Hload : forall row, value (omap (view false) ws) row 1 = built_label row)
    by (intros row; rewrite value_view; apply Hws).
  rewrite (find_reason_labels _ _ _ Hload).
  replace (List.find _ _) with (@None nat) by (vm_compute; reflexivity).
  eexists. split; [reflexivity | exact Hload].
Qed.

Lemma clear_explained (f : report) :
  column_a explained_label f -> column_a built_label (clear_previous_reason f).
Proof.
  intros (ws & -> & Hws). unfold clear_previous_reason. cbn [load_summary].
  assert (Hload : forall row, value (omap (view false) ws) row 1 = explained_label row)
    by (intros row; rewrite value_view; apply Hws).
  rewrite (find_reason_labels _ _ _ Hload).
  replace (List.find _ _) with (Some 8) by (vm_compute; reflexivity).
  eexists. split; [reflexivity|]. intros row.
  rewrite value_assign_ne by congruence.
  destruct (Nat.eqb_spec row 8) as [->|Hne].
  - rewrite value_assign_eq. reflexivity.
  - rewrite value_assign_ne by congruence. rewrite Hload.
    unfold explained_label. apply Nat.eqb_neq in Hne. rewrite Hne. reflexivity.
Qed.

(** On a report as built, an accepted text goes into row 8 with its
    label; a refused one leaves the report. *)
Lemma update_built (reason : string) (f : report) :
  column_a built_label f ->
  match check_string reason with
  | Ok text =>
      column_a explained_label (update_excel_with_reason reason f) /\
      reason_text (update_excel_with_reason reason f) 8 = Some (VStr text)
  | Raise _ => update_excel_with_reason reason f = f
  end.
Proof.
  intros (ws & -> & Hws).
  destruct (check_string reason) as [text|e] eqn:Hcheck;
    [|exact (update_refused _ _ _ Hcheck)].
  rewrite (update_accepted reason text (Workbook (Some ws)) _ eq_refl Hcheck).
  assert (Hload : forall row, value (omap (view false) ws) row 1 = built_label row)
    by (intros row; rewrite value_view; apply Hws).
  unfold reason_written.
  rewrite (find_reason_labels _ _ _ Hload).
  replace (List.find _ _) with (@None nat) by (vm_compute; reflexivity).
  rewrite (last_data_row_labels _ _ _ _ Hload).
  replace (foldl _ _ _ + 1) with 8 by (vm_compute; reflexivity).
  split.
  - eexists. split; [reflexivity|]. intros row.
    rewrite value_assign_ne by congruence.
    unfold explained_label. destruct (Nat.eqb_spec row 8) as [->|Hne].
    + apply value_assign_eq.
    + rewrite value_assign_ne by congruence. apply Hload.
  - cbn [reason_text save]. apply value_assign_eq.
Qed.

Lemma update_explained (reason : string) (f : report) :
  column_a explained_label f ->
  column_a explained_label (update_excel_with_reason reason f).
Proof.
  intros Hf.
  destruct (check_string reason) as [text|e] eqn:Hcheck;
    [|rewrite (update_refused _ _ _ Hcheck); exact Hf].
  destruct Hf as (ws & -> & Hws).
  rewrite (update_accepted reason text (Workbook (Some ws)) _ eq_refl Hcheck).
  assert (Hload : forall row, value (omap (view false) ws) row 1 = explained_label row)
    by (intros row; rewrite value_view; apply Hws).
  unfold reason_written.
  rewrite (find_reason_labels _ _ _ Hload).
  replace (List.find _ _) with (Some 8) by (vm_compute; reflexivity).
  eexists. split; [reflexivity|]. intros row.
  rewrite value_assign_ne by congruence. apply Hload.
Qed.

(** Every reachable report has the seven built rows in column A, with or
    without a Reason in row 8, and nothing else. *)
Lemma reachable_column_a (f : report) :
  reachable f -> column_a built_label f \/ column_a explained_label f.
Proof.
  induction 1 as [total aug sep | f _ IH | reason f _ IH | ws ws' _ IH Hsame].
  - left. apply build_excel_column_a.
  - left. destruct IH; [apply clear_built | apply clear_explained]; assumption.
  - destruct IH as [IH|IH]; [|right; apply update_explained; exact IH].
    pose proof (update_built reason f IH) as Hup.
    destruct (check_string reason); [right; apply Hup|].
    rewrite Hup. left. exact IH.
  - destruct IH as [(ws0 & [= <-] & H)|(ws0 & [= <-] & H)]; [left|right];
      (eexists; split; [reflexivity|]); intros row; rewrite Hsame; apply H.
Qed.

Lemma main_with_reachable (t : pyfloat) (w : world) (f : report) :
  reachable f -> reachable (main_with t w f).1.
Proof.
  intros H. unfold main_with.
  destruct (fle _ _); cbn [fst]; repeat constructor; exact H.
Qed.

Definition bell : string := String (ascii_of_nat 7) EmptyString.

(** A narrative service whose answer ends with a control character. *)
Definition ringing_world : world := {|
  OPENAI_API_KEY := Some "sk-demo";
  read_ap_summary := fun _ => "A1: Item | B1: Amount";
  read_reconciliation_detail := fun _ => "Supporting Invoice Screenshot:";
  read_september_gl_entries := "date: 2025-09-30 | credit: 140000";
  read_emails_for_investigation := "subject: September invoices";
  chat_completion :=
    fun _ => Completion (Some ("Invoices were received late." ++ bell))
|}.

(** C2, as stated, fails: when the narrative of the second run holds a
    control character, the workbook refuses it, the update is given up
    before the save, and the report is left without any Reason entry. *)
Lemma refused_narrative_leaves_no_reason :
  let f := build_excel 125000 100000 140000 in
  let narrative := "Invoices were received late." ++ bell in
  reachable f /\
  check_string narrative = Raise IllegalCharacterError /\
  main ringing_world (main ringing_world f).1 = (f, Investigated narrative) /\
  forall r, is_reason_row f r = false.
Proof.
  split; [constructor|]. split; [vm_compute; reflexivity|].
  split; [vm_compute; reflexivity|].
  intros r. apply column_a_built_no_reason, build_excel_column_a.
Qed.

(** C2, amended. A report the pipeline can reach has at most one Reason
    entry; and when the investigation is run twice on such a report, the
    report is left with exactly one Reason entry, whose text is the
    narrative of the second run as the workbook takes it (cut to 32767
    characters), if the second run writes one, and with no Reason entry if
    the workbook refuses the narrative or the second run ends within the
    threshold. *)
Theorem reachable_one_reason (f : report) :
  reachable f ->
  at_most_one_reason f /\
  forall t1 t2 w1 w2 f2 ending,
    main_with t2 w2 (main_with t1 w1 f).1 = (f2, ending) ->
    match ending with
    | Investigated narrative =>
        match check_string narrative with
        | Ok text =>
            exists row,
              (forall r, is_reason_row f2 r = true <-> r = row) /\
              reason_text f2 row = Some (VStr text)
        | Raise _ => forall r, is_reason_row f2 r = false
        end
    | WithinThreshold => forall r, is_reason_row f2 r = false
    end.
Proof.
  intros Hf. split.
  - intros r1 r2.
    destruct (reachable_column_a f Hf) as [(ws & -> & H)|(ws & -> & H)];
      cbn [is_reason_row]; rewrite !H.
    + rewrite built_label_no_reason. discriminate.
    + rewrite !explained_label_reason. congruence.
  - intros t1 t2 w1 w2 f2 ending Hrun.
    pose proof (main_with_reachable t1 w1 f Hf) as H1.
    set (f1 := (main_with t1 w1 f).1) in *.
    assert (Hclear : column_a built_label (clear_previous_reason f1))
      by (destruct (reachable_column_a f1 H1);
          [apply clear_built | apply clear_explained]; assumption).
    unfold main_with in Hrun.
    destruct (fle _ _); injection Hrun as <- <-.
    + intros r. exact (column_a_built_no_reason _ r Hclear).
    + pose proof (update_built
                    (generate_investigation_reason w2
                       (read_mom_percentage (clear_previous_reason f1))
                       (read_ap_summary w2 (clear_previous_reason f1))
                       (read_reconciliation_detail w2 (clear_previous_reason f1))
                       (read_september_gl_entries w2)
                       (read_emails_for_investigation w2))
                    _ Hclear) as Hup.
      destruct (check_string _) as [text|e].
      * destruct Hup as [(ws & Hws & Hlab) Htext].
        exists 8. split; [|exact Htext].
        intros r. rewrite Hws. cbn [is_reason_row]. rewrite Hlab.
        apply explained_label_reason.
      * rewrite Hup. intros r. exact (column_a_built_no_reason _ r Hclear).
Qed.

Definition demo_world : world := {|
  OPENAI_API_KEY := Some "sk-demo";
  read_ap_summary := fun _ => "A1: Item | B1: Amount";
  read_reconciliation_detail := fun _ => "Supporting Invoice Screenshot:";
  read_september_gl_entries := "date: 2025-09-30 | credit: 140000";
  read_emails_for_investigation := "subject: September invoices";
  chat_completion := fun _ => Completion (Some " Invoices were received late. ")
|}.

Lemma reachable_one_reason_witness :
  at_most_one_reason (build_excel 125000 100000 140000) /\
  exists row,
    (forall r,
       is_reason_row
         (main demo_world (main demo_world (build_excel 125000 100000 140000)).1).1 r
       = true <-> r = row) /\
    reason_text
      (main demo_world (main demo_world (build_excel 125000 100000 140000)).1).1 row
    = Some (VStr "Invoices were received late.").
Proof.
  destruct (reachable_one_reason (build_excel 125000 100000 140000)
              (reach_build _ _ _)) as [H1 H2].
  split; [exact H1|].
  specialize (H2 THRESHOLD_PERCENT THRESHOLD_PERCENT demo_world demo_world
                (main demo_world (main demo_world (build_excel 125000 100000 140000)).1).1
                (Investigated "Invoices were received late.")).
  cbv beta iota in H2.
  replace (check_string "Invoices were received late.")
    with (@Ok string "Invoices were received late.") in H2
    by (vm_compute; reflexivity).
  apply H2. vm_compute. reflexivity.
Defined.

(** *** The threshold gate *)

(** The request of a run whose report, once cleared, is [f]: the
    percentage read from it, its direction, and the four texts gathered,
    the e-mails cut to 1500 characters. *)
Definition run_prompt (w : world) (f : report) : prompt := {|
  percent := read_mom_percentage f;
  direction :=
    if fgt (read_mom_percentage f) (lit 0) then "increase" else "decrease";
  summary_info := read_ap_summary w f;
  detail_info := read_reconciliation_detail w f;
  sept_gl_info := read_september_gl_entries w;
  email_content := String.substring 0 1500 (read_emails_for_investigation w)
|}.

(** The narrative of such a run. *)

Definition run_reason (w : world) (f : report) : string :=
  generate_investigation_reason w (read_mom_percentage f) (read_ap_summary w f)
    (read_reconciliation_detail w f) (read_september_gl_entries w)
    (read_emails_for_investigation w).

(** The report has a Reason entry with text [reason]. *)
Definition has_reason (f : report) (reason : string) : Prop :=
  exists row, is_reason_row f row = true /\ reason_text f row = Some (VStr reason).

Lemma update_writes_reason (reason text : string) (f : report) (ws : sheet) :
  load_summary false f = Ok ws ->
  check_string reason = Ok text ->
  has_reason (update_excel_with_reason reason f) text.
Proof.
  intros Hload Hcheck. rewrite (update_accepted _ _ _ _ Hload Hcheck).
  unfold reason_written.
  destruct (find_reason ws (seq 1 49)) as [row|] eqn:Hfind.
  - apply find_reason_some in Hfind as [_ Hlabel].
    exists row. cbn [is_reason_row reason_text save].
    rewrite value_assign_ne by congruence. rewrite value_assign_eq.
    split; [exact Hlabel | reflexivity].
  - eexists. cbn [is_reason_row reason_text save].
    rewrite value_assign_ne by congruence. rewrite !value_assign_eq.
    split; reflexivity.
Qed.

(** The outcome of the update of a run, by the check of the narrative. *)
Lemma update_outcome (reason : string) (f : report) (ws : sheet) :
  load_summary false f = Ok ws ->
  match check_string reason with
  | Ok text => has_reason (update_excel_with_reason reason f) text
  | Raise _ => update_excel_with_reason reason f = f
  end.
Proof.
  intros Hload. destruct (check_string reason) as [text|e] eqn:Hcheck.
  - exact (update_writes_reason _ _ _ _ Hload Hcheck).
  - exact (update_refused _ _ _ Hcheck).
Qed.

Lemma SFcompare_antisym (x y : pyfloat) :
  SFcompare y x = option_map CompOpp (SFcompare x y).
Proof.
  destruct x as [sx|sx| |sx mx ex], y as [sy|sy| |sy my ey]; cbn;
    try destruct sx; try destruct sy; try reflexivity;
    rewrite (Z.compare_antisym ex ey); destruct (ex ?= ey)%Z; cbn;
    try reflexivity;
    change (Pos.compare_cont Eq my mx) with (Pos.compare_cont (CompOpp Eq) my mx);
    rewrite <- (Pos.compare_cont_antisym mx my Eq);
    destruct (Pos.compare_cont Eq mx my); reflexivity.
Qed.

Lemma fgt_not_fle (x y : pyfloat) : fgt x y = true -> fle x y = false.
Proof.
  unfold fgt, fle, SFltb, SFleb. rewrite (SFcompare_antisym x y).
  destruct (SFcompare x y) as [[]|]; cbn; congruence.
Qed.

(** A percentage that is not within a threshold that is not negative was
    read from a summary sheet. *)
Lemma not_within_loads (t : pyfloat) (f : report) :
  fle (lit 0) t = true ->
  fle (fabs (read_mom_percentage f)) t = false ->
  exists ws, load_summary false f = Ok ws.
Proof.
  intros Ht Hout. destruct f as [|[ws|]].
  - change (fabs (read_mom_percentage NoWorkbook)) with (lit 0) in Hout.
    congruence.
  - eexists. reflexivity.
  - change (fabs (read_mom_percentage (Workbook None))) with (lit 0) in Hout.
    congruence.
Qed.

Lemma above_threshold_loads (t : pyfloat) (f : report) :
  fle (lit 0) t = true ->
  fgt (fabs (read_mom_percentage f)) t = true ->
  exists ws, load_summary false f = Ok ws.
Proof.
  intros Ht Habove. exact (not_within_loads t f Ht (fgt_not_fle _ _ Habove)).
Qed.

(** C3, as stated, fails. A run that goes past the threshold and whose
    narrative holds a control character writes no Reason entry; and under
    a negative threshold a run on a workbook that cannot be opened reads
    the percentage 0, goes past the threshold and has nothing to write
    to. *)
Lemma investigation_without_reason :
  (let f := build_excel 125000 100000 140000 in
   fgt (fabs (read_mom_percentage (clear_previous_reason f))) THRESHOLD_PERCENT
   = true /\
   main ringing_world f
   = (f, Investigated ("Invoices were received late." ++ bell)) /\
   forall r, is_reason_row f r = false) /\
  (fgt (fabs (read_mom_percentage (clear_previous_reason NoWorkbook))) (lit (-1))
   = true /\
   main_with (lit (-1)) demo_world NoWorkbook
   = (NoWorkbook, Investigated "Invoices were received late.") /\
   forall r, is_reason_row NoWorkbook r = false).
Proof.
  split.
  - split; [vm_compute; reflexivity|]. split; [vm_compute; reflexivity|].
    intros r. apply column_a_built_no_reason, build_excel_column_a.
  - split; [vm_compute; reflexivity|]. split; [vm_compute; reflexivity|].
    reflexivity.
Qed.

(** C3, amended. Let [p] be the percentage read from the cleared report
    and [t] the threshold. If [|p| <= t] the run ends there: the report is
    the cleared one and no narrative is asked for. Otherwise, as when
    [|p| > t], the run gathers the four texts from the cleared report and
    its surroundings, and its narrative is what the service answers to the
    request [run_prompt] made of [p], its direction and these texts, the
    e-mails cut to 1500 characters (the fixed message about the key when
    there is no API key); the run hands the narrative to
    [update_excel_with_reason]. The
    report then has a Reason entry with the narrative as the workbook
    takes it, provided the summary sheet can be loaded, as it can whenever
    the threshold is not negative; a narrative the workbook refuses, or a
    sheet that cannot be loaded, leaves the cleared report. *)
Theorem threshold_gate (t : pyfloat) (w : world) (f : report) :
  let f' := clear_previous_reason f in
  let p := read_mom_percentage f' in
  let narrative :=
    if has_key w then
      match chat_completion w (run_prompt w f') with
      | Completion (Some content) =>
          if nonempty content then strip content
          else "No analysis could be generated from the provided data"
      | Completion None =>
          "No analysis could be generated from the provided data"
      | ApiError cause =>
          "Unable to generate AI analysis due to API error: " ++ cause
      end
    else "Error: OpenAI API key not found in environment variables" in
  (fle (fabs p) t = true -> main_with t w f = (f', WithinThreshold)) /\
  (fgt (fabs p) t = true -> fle (fabs p) t = false) /\
  (fle (fabs p) t = false ->
   main_with t w f
   = (update_excel_with_reason narrative f', Investigated narrative) /\
   (fle (lit 0) t = true -> exists ws, load_summary false f' = Ok ws) /\
   ((exists ws, load_summary false f' = Ok ws) ->
    match check_string narrative with
    | Ok text => has_reason (main_with t w f).1 text
    | Raise _ => (main_with t w f).1 = f'
    end) /\
   ((forall ws, load_summary false f' <> Ok ws) -> (main_with t w f).1 = f')).
Proof.
  intros f' p narrative. split; [|split].
  - intros Hle. unfold main_with. fold f'. fold p. rewrite Hle. reflexivity.
  - apply fgt_not_fle.
  - intros Hout.
    assert (Hreason : run_reason w f' = narrative).
    { unfold run_reason, generate_investigation_reason, narrative.
      destruct (has_key w); reflexivity. }
    assert (Hrun : main_with t w f
                   = (update_excel_with_reason narrative f',
                      Investigated narrative)).
    { rewrite <- Hreason. unfold main_with. fold f'. fold p. rewrite Hout.
      reflexivity. }
    split; [exact Hrun|]. split; [|split].
    + intros Ht. exact (not_within_loads t f' Ht Hout).
    + intros [ws Hws]. rewrite Hrun. cbn [fst].
      exact (update_outcome narrative f' ws Hws).
    + intros Hnone. rewrite Hrun. cbn [fst].
      destruct (load_summary false f') as [ws|e] eqn:Hload;
        [destruct (Hnone ws eq_refl)|].
      exact (update_unloaded _ _ _ Hload).
Qed.

Lemma threshold_gate_witness :
  main demo_world (build_excel 125000 100000 103000)
  = (build_excel 125000 100000 103000, WithinThreshold) /\
  main demo_world (build_excel 125000 100000 140000)
  = (update_excel_with_reason "Invoices were received late."
       (build_excel 125000 100000 140000),
     Investigated "Invoices were received late.") /\
  has_reason (main demo_world (build_excel 125000 100000 140000)).1
    "Invoices were received late.".
Proof.
  split; [|split].
  - apply (proj1 (threshold_gate THRESHOLD_PERCENT demo_world
                    (build_excel 125000 100000 103000))).
    vm_compute. reflexivity.
  - apply (proj1 (proj2 (proj2 (threshold_gate THRESHOLD_PERCENT demo_world
                                  (build_excel 125000 100000 140000)))
                    ltac:(vm_compute; reflexivity))).
  - pose proof (proj1 (proj2 (proj2 (proj2 (proj2
                  (threshold_gate THRESHOLD_PERCENT demo_world
                     (build_excel 125000 100000 140000)))
                  ltac:(vm_compute; reflexivity))))
                  ltac:(eexists; reflexivity)) as H.
    cbv beta iota zeta in H.
    replace (check_string _)
      with (@Ok string "Invoices were received late.") in H
      by (vm_compute; reflexivity).
    exact H.
Defined.

(** *** A failing narrative service *)

Lemma startswith_refl (s : string) : startswith s s = true.
Proof.
  induction s as [|c s IH]; [reflexivity|].
  cbn [startswith]. rewrite Ascii.eqb_refl. exact IH.
Qed.

Lemma contains_refl (s : string) : contains s s = true.
Proof. destruct s; cbn [contains]; rewrite startswith_refl; reflexivity. Qed.

Lemma contains_append (p s : string) : contains s (p ++ s) = true.
Proof.
  induction p as [|c p IH]; [apply contains_refl|].
  change (String c p ++ s) with (String c (p ++ s)).
  cbn [contains]. rewrite IH. apply orb_true_r.
Qed.

Definition api_error_message (cause : string) : string :=
  "Unable to generate AI analysis due to API error: " ++ cause.

(** A narrative service that fails with an error whose text ends with a
    control character. *)
Definition ringing_failure : world := {|
  OPENAI_API_KEY := Some "sk-demo";
  read_ap_summary := fun _ => "";
  read_reconciliation_detail := fun _ => "";
  read_september_gl_entries := "";
  read_emails_for_investigation := "";
  chat_completion := fun _ => ApiError ("Connection error." ++ bell)
|}.

(** C6, as stated, fails: when the text of the error holds a control
    character, the run completes with the failure message as its
    narrative, but the workbook refuses the message and no Reason entry is
    written. *)
Lemma refused_failure_message_is_not_written :
  let f := build_excel 125000 100000 140000 in
  main ringing_failure f
  = (f, Investigated (api_error_message ("Connection error." ++ bell))) /\
  forall r, is_reason_row f r = false.
Proof.
  split; [vm_compute; reflexivity|].
  intros r. apply column_a_built_no_reason, build_excel_column_a.
Qed.

(** C6, amended. When the run does not end within the threshold, the API
    key is set and the call to the narrative service raises an error whose
    text is [cause], the run ends normally: its narrative is the fixed
    failure message followed by [cause], and the update of the report is
    called with it. The report then has a Reason entry with that message
    as the workbook takes it: the message itself when it has at most 32767
    characters and no control character; when the workbook refuses the
    message, the report is left as cleared. *)
Theorem api_failure_is_reported (w : world) (f : report) (cause : string) :
  let f' := clear_previous_reason f in
  has_key w = true ->
  fle (fabs (read_mom_percentage f')) THRESHOLD_PERCENT = false ->
  chat_completion w (run_prompt w f') = ApiError cause ->
  contains cause (api_error_message cause) = true /\
  main w f = (update_excel_with_reason (api_error_message cause) f',
              Investigated (api_error_message cause)) /\
  match check_string (api_error_message cause) with
  | Ok text => has_reason (main w f).1 text
  | Raise _ => (main w f).1 = f'
  end /\
  (storable (api_error_message cause) ->
   has_reason (main w f).1 (api_error_message cause)).
Proof.
  intros f' Hkey Hout Hcall.
  assert (Hreason : run_reason w f' = api_error_message cause).
  { unfold run_reason, generate_investigation_reason. rewrite Hkey.
    cbn [negb].
    change (build_prompt _ _ _ _ _) with (run_prompt w f'). rewrite Hcall.
    reflexivity. }
  assert (Hrun : main w f
                 = (update_excel_with_reason (api_error_message cause) f',
                    Investigated (api_error_message cause))).
  { rewrite <- Hreason. unfold main, main_with. fold f'.
    rewrite Hout. reflexivity. }
  destruct (not_within_loads THRESHOLD_PERCENT f' eq_refl Hout) as [ws Hws].
  split; [apply contains_append|]. split; [exact Hrun|].
  rewrite Hrun. cbn [fst]. split.
  - exact (update_outcome _ _ _ Hws).
  - intros Hs.
    exact (update_writes_reason _ _ _ _ Hws (check_string_storable _ Hs)).
Qed.

Definition failing_world : world := {|
  OPENAI_API_KEY := Some "sk-demo";
  read_ap_summary := fun _ => "";
  read_reconciliation_detail := fun _ => "";
  read_september_gl_entries := "";
  read_emails_for_investigation := "";
  chat_completion := fun _ => ApiError "Connection error."
|}.

Lemma api_failure_is_reported_witness :
  main failing_world (build_excel 125000 100000 140000)
  = (update_excel_with_reason
       "Unable to generate AI analysis due to API error: Connection error."
       (build_excel 125000 100000 140000),
     Investigated
       "Unable to generate AI analysis due to API error: Connection error.") /\
  has_reason (main failing_world (build_excel 125000 100000 140000)).1
    "Unable to generate AI analysis due to API error: Connection error.".
Proof.
  destruct (api_failure_is_reported failing_world
              (build_excel 125000 100000 140000) "Connection error.")
    as (_ & Hrun & _ & Hreason).
  - reflexivity.
  - vm_compute. reflexivity.
  - reflexivity.
  - split; [exact Hrun|]. apply Hreason. split.
    + apply Nat.leb_le. vm_compute. reflexivity.
    + vm_compute. reflexivity.
Defined.

(** *** A report that cannot be read *)

(** C9. When the workbook cannot be opened or has no summary sheet,
    reading the percentage raises inside [read_mom_percentage], which
    returns 0, and the run ends within the threshold with the report as it
    was and no narrative asked for. The same holds for any exception raised
    while the percentage is read from the cleared report. *)
Theorem read_failure_is_within_threshold (w : world) (f : report) (e : exn) :
  (load_summary true f = Raise e ->
   read_mom_percentage_try f = Raise e /\
   read_mom_percentage f = lit 0 /\
   main w f = (f, WithinThreshold)) /\
  (read_mom_percentage_try (clear_previous_reason f) = Raise e ->
   read_mom_percentage (clear_previous_reason f) = lit 0 /\
   main w f = (clear_previous_reason f, WithinThreshold)).
Proof.
  split.
  - intros Hload.
    destruct f as [|[ws|]]; [|discriminate Hload|];
      injection Hload as <-; repeat split; reflexivity.
  - intros Hraise.
    assert (Hzero : read_mom_percentage (clear_previous_reason f) = lit 0)
      by (unfold read_mom_percentage; rewrite Hraise; reflexivity).
    split; [exact Hzero|].
    unfold main, main_with. rewrite Hzero. reflexivity.
Qed.

Lemma read_failure_is_within_threshold_witness :
  (read_mom_percentage NoWorkbook = lit 0 /\
   main demo_world NoWorkbook = (NoWorkbook, WithinThreshold)) /\
  main demo_world (Workbook None) = (Workbook None, WithinThreshold).
Proof.
  split.
  - apply (proj1 (read_failure_is_within_threshold demo_world NoWorkbook OSError)).
    reflexivity.
  - apply (proj2 (read_failure_is_within_threshold demo_world (Workbook None)
                    KeyError)).
    reflexivity.
Defined.

(** *** What [update_excel_with_reason] changes *)

(** [row] is the first of the rows 1..49 whose column A reads "reason". *)
Definition first_reason_row (ws : sheet) (row : nat) : Prop :=
  1 <= row <= 49 /\ is_reason_label (value ws row 1) = true /\
  forall r, 1 <= r < row -> is_reason_label (value ws r 1) = false.

(** [last] is the last of the rows 1..49 with data in column A, or row 1
    when there is none. *)
Definition last_data (ws : sheet) (last : nat) : Prop :=
  (last = 1 \/ (1 <= last <= 49 /\ truthy (value ws last 1) = true)) /\
  forall r, last < r <= 49 -> truthy (value ws r 1) = false.

Lemma find_reason_seq (ws : sheet) (n a : nat) :
  match find_reason ws (seq a n) with
  | Some row =>
      a <= row < a + n /\ is_reason_label (value ws row 1) = true /\
      forall r, a <= r < row -> is_reason_label (value ws r 1) = false
  | None => forall r, a <= r < a + n -> is_reason_label (value ws r 1) = false
  end.
Proof.
  revert a. induction n as [|n IH]; intros a; cbn [seq find_reason].
  - intros r Hr. lia.
  - destruct (is_reason_label (value ws a 1)) eqn:E.
    + split; [lia|]. split; [exact E|]. intros r Hr. lia.
    + specialize (IH (S a)). destruct (find_reason ws (seq (S a) n)) as [row|].
      * destruct IH as (Hrow & Hlabel & Hbefore). split; [lia|].
        split; [exact Hlabel|]. intros r Hr.
        destruct (decide (r = a)) as [->|Hne]; [exact E|]. apply Hbefore. lia.
      * intros r Hr.
        destruct (decide (r = a)) as [->|Hne]; [exact E|]. apply IH. lia.
Qed.

Lemma last_data_row_seq (ws : sheet) (n a last_row : nat) :
  let last := last_data_row ws (seq a n) last_row in
  (last = last_row \/ (a <= last < a + n /\ truthy (value ws last 1) = true)) /\
  forall r, a <= r < a + n -> last < r -> truthy (value ws r 1) = false.
Proof.
  unfold last_data_row. revert a last_row.
  induction n as [|n IH]; intros a last_row; cbn [seq foldl].
  - split; [left; reflexivity|]. intros r Hr. lia.
  - destruct (truthy (value ws a 1)) eqn:E.
    + destruct (IH (S a) a) as [[Hlast|Hlast] Hafter].
      * rewrite Hlast in *. split; [right; split; [lia|exact E]|].
        intros r Hr Hlt. apply Hafter; lia.
      * split; [right; split; [lia|apply Hlast]|].
        intros r Hr Hlt. apply Hafter; lia.
    + destruct (IH (S a) last_row) as [Hlast Hafter].
      split; [destruct Hlast as [Hlast|Hlast];
              [left; exact Hlast | right; split; [lia|apply Hlast]]|].
      intros r Hr Hlt.
      destruct (decide (r = a)) as [->|Hne]; [exact E|]. apply Hafter; lia.
Qed.

Lemma last_data_row_last (ws : sheet) :
  last_data ws (last_data_row ws (seq 1 49) 1).
Proof.
  destruct (last_data_row_seq ws 49 1 1) as [Hlast Hafter]. split.
  - destruct Hlast as [Hlast|[Hrange Htruthy]];
      [left; exact Hlast | right; split; [lia|exact Htruthy]].
  - intros r Hr. apply Hafter; lia.
Qed.

(** A summary of fifty rows of data, none of them a Reason. *)
Definition fifty_rows : sheet :=
  list_to_map
    (flat_map (fun row => [((row, 1), Const (VStr "Line")); ((row, 2), Const (VNum 1))])
       (seq 1 50)).

(** C10. On a summary with fifty rows of data and no Reason among the
    first 49, the scan for the last row with data ends at row 49, and
    "Reason" and the narrative are written over row 50: the last populated
    row is row 50, no row is added after it, and the label and the amount
    of row 50 are lost. *)
Theorem update_overwrites_row_50 :
  find_reason fifty_rows (seq 1 49) = None /\
  last_data_row fifty_rows (seq 1 49) 1 = 49 /\
  value fifty_rows 50 1 = Some (VStr "Line") /\
  value fifty_rows 50 2 = Some (VNum 1) /\
  value fifty_rows 51 1 = None /\
  exists ws',
    update_excel_with_reason "narrative" (Workbook (Some fifty_rows))
    = Workbook (Some ws') /\
    value ws' 50 1 = Some (VStr "Reason") /\
    value ws' 50 2 = Some (VStr "narrative") /\
    value ws' 51 1 = None /\
    value ws' 51 2 = None.
Proof.
  split; [vm_compute; reflexivity|]. split; [vm_compute; reflexivity|].
  split; [vm_compute; reflexivity|]. split; [vm_compute; reflexivity|].
  split; [vm_compute; reflexivity|].
  rewrite (update_accepted "narrative" "narrative" (Workbook (Some fifty_rows)) _
             eq_refl ltac:(vm_compute; reflexivity)).
  eexists. split; [reflexivity|]. repeat split; vm_compute; reflexivity.
Qed.

(** *** Reading the percentage *)

(** [v] is the percentage the report holds: the column B value of the
    first of the rows 1..19 that is labelled "MoM % Change" and has one. *)
Definition precomputed (ws : sheet) (row : nat) (v : pyval) : Prop :=
  1 <= row <= 19 /\ is_mom_label (value ws row 1) = true /\
  value ws row 2 = Some v /\
  forall r, 1 <= r < row -> is_mom_label (value ws r 1) = true ->
            value ws r 2 = None.

(** No row 1..19 labelled "MoM % Change" has a value. *)
Definition no_precomputed (ws : sheet) : Prop :=
  forall r, 1 <= r <= 19 -> is_mom_label (value ws r 1) = true ->
            value ws r 2 = None.

Lemma find_mom_first (ws : sheet) (n a row : nat) (v : pyval) :
  a <= row < a + n ->
  is_mom_label (value ws row 1) = true ->
  value ws row 2 = Some v ->
  (forall r, a <= r < row -> is_mom_label (value ws r 1) = true ->
             value ws r 2 = None) ->
  find_mom ws (seq a n) = Some (float_of (unpercent v)).
Proof.
  revert a. induction n as [|n IH]; intros a Hrow Hlabel Hv Hbefore; [lia|].
  cbn [seq find_mom]. destruct (decide (a = row)) as [->|Hne].
  - rewrite Hlabel, Hv. reflexivity.
  - assert (Hskip : find_mom ws (seq (S a) n) = Some (float_of (unpercent v))).
    { apply IH; [lia|exact Hlabel|exact Hv|]. intros r Hr. apply Hbefore. lia. }
    destruct (is_mom_label (value ws a 1)) eqn:E; [|exact Hskip].
    rewrite (Hbefore a) by (lia || exact E). exact Hskip.
Qed.

Lemma find_mom_none (ws : sheet) (n a : nat) :
  (forall r, a <= r < a + n -> is_mom_label (value ws r 1) = true ->
             value ws r 2 = None) ->
  find_mom ws (seq a n) = None.
Proof.
  revert a. induction n as [|n IH]; intros a Hnone; [reflexivity|].
  cbn [seq find_mom].
  assert (Hskip : find_mom ws (seq (S a) n) = None)
    by (apply IH; intros r Hr; apply Hnone; lia).
  destruct (is_mom_label (value ws a 1)) eqn:E; [|exact Hskip].
  rewrite (Hnone a) by (lia || exact E). exact Hskip.
Qed.

Lemma read_mom_percentage_try_loaded (f : report) (values formulas : sheet) :
  load_summary true f = Ok values ->
  load_summary false f = Ok formulas ->
  read_mom_percentage_try f
  = match find_mom values (seq 1 19) with
    | Some r => r
    | None => calculate_manually formulas
    end.
Proof.
  intros Hvalues Hformulas. unfold read_mom_percentage_try.
  rewrite Hvalues, bind_Ok, Hformulas, bind_Ok. reflexivity.
Qed.

Lemma percent_change_nonzero (a b : pyfloat) :
  fnonzero a = true ->
  percent_change a b = Ok (fmul (fquot (fsub b a) a) (lit 100)).
Proof. intros Ha. unfold percent_change, fdiv. rewrite Ha. reflexivity. Qed.

(** The report as built for August 100000 and September 140000, with
    the percentage cell typed over by a text that is no number. *)
Definition typed_over : report :=
  Workbook (Some (<[(7, 2) := Const (VStr "n/a")]>
                    (built_summary 125000 100000 140000))).

(** The same report after the spreadsheet application computed the
    formulas: the percentage cell holds its result. *)
Definition recalculated : report :=
  Workbook (Some (<[(7, 2) := Formula "(B4-B3)/B3*100" (Some (VNum 40))]>
                    (built_summary 125000 100000 140000))).

(** C4, as stated, fails: a percentage that is present but does not parse
    is not recomputed from the balances, it is read as 0. *)
Lemma unparsable_percentage_reads_zero :
  (exists ws, load_summary true typed_over = Ok ws /\
              find_mom ws (seq 1 19) = Some (Raise ValueError)) /\
  (exists ws, load_summary false typed_over = Ok ws /\
              read_balances ws (seq 1 19) None None
              = Ok (Some (lit 100000), Some (lit 140000))) /\
  percent_change (lit 100000) (lit 140000) = Ok (lit 40) /\
  read_mom_percentage typed_over = lit 0.
Proof.
  split; [eexists; split; [reflexivity | vm_compute; reflexivity]|].
  split; [eexists; split; [reflexivity | vm_compute; reflexivity]|].
  split; vm_compute; reflexivity.
Qed.

(** C4, amended. With the summary sheet readable: if the first of the rows
    1..19 labelled "MoM % Change" that holds a value holds one that parses
    (the percent sign and outer blanks removed from a text), that number is
    the percentage; if its value does not parse the percentage is 0; if
    no such row holds a value, the percentage is recomputed from the
    balances read in rows 1..19 as [(b - a) / a * 100], in floating point,
    and is 0 when [a = 0], when a balance is missing or when a balance
    does not parse. *)
Theorem read_mom_percentage_cases (f : report) (values formulas : sheet) :
  load_summary true f = Ok values ->
  load_summary false f = Ok formulas ->
  (forall row v, precomputed values row v ->
     match float_of (unpercent v) with
     | Ok p => read_mom_percentage f = p
     | Raise _ => read_mom_percentage f = lit 0
     end) /\
  (no_precomputed values ->
     match read_balances formulas (seq 1 19) None None with
     | Ok (Some a, Some b) =>
         read_mom_percentage f
         = if fnonzero a then fmul (fquot (fsub b a) a) (lit 100) else lit 0
     | _ => read_mom_percentage f = lit 0
     end).
Proof.
  intros Hvalues Hformulas.
  pose proof (read_mom_percentage_try_loaded f values formulas Hvalues Hformulas)
    as Htry.
  unfold read_mom_percentage. split.
  - intros row v (Hrow & Hlabel & Hv & Hbefore).
    rewrite (find_mom_first values 19 1 row v) in Htry
      by (lia || assumption || (intros; apply Hbefore; [lia|assumption])).
    rewrite Htry. destruct (float_of (unpercent v)); reflexivity.
  - intros Hnone.
    rewrite (find_mom_none values 19 1) in Htry
      by (intros r Hr; apply Hnone; lia).
    rewrite Htry. unfold calculate_manually.
    destruct (read_balances formulas (seq 1 19) None None)
      as [[[a|] [b|]]|e]; rewrite ?bind_Ok; [|reflexivity..].
    destruct (fnonzero a) eqn:Ha; [|reflexivity].
    rewrite (percent_change_nonzero a b Ha). reflexivity.
Qed.

Lemma read_mom_percentage_cases_witness :
  read_mom_percentage recalculated = lit 40 /\
  read_mom_percentage (build_excel 125000 100000 140000)
  = fmul (fquot (fsub (lit 140000) (lit 100000)) (lit 100000)) (lit 100) /\
  read_mom_percentage (build_excel 125000 100000 140000) = lit 40.
Proof.
  split.
  - pose proof (proj1 (read_mom_percentage_cases recalculated _ _ eq_refl eq_refl)
                  7 (VNum 40)) as H.
    apply H. split; [lia|]. split; [vm_compute; reflexivity|].
    split; [vm_compute; reflexivity|].
    intros r Hr.
    do 7 (destruct r as [|r]; [try lia; vm_compute; congruence|]). lia.
  - pose proof (proj2 (read_mom_percentage_cases
                         (build_excel 125000 100000 140000) _ _ eq_refl eq_refl))
      as H.
    assert (Hnone : no_precomputed
                      (omap (view true) (built_summary 125000 100000 140000))).
    { intros r Hr.
      do 20 (destruct r as [|r]; [try lia; vm_compute; congruence|]). lia. }
    specialize (H Hnone). vm_compute in H.
    split; vm_compute; exact H.
Defined.

(** *** A prior balance of zero *)

Lemma float_of_str_raises (s : string) (e : exn) :
  float_of_str s = Raise e -> e = ValueError.
Proof.
  unfold float_of_str. repeat case_match; congruence.
Qed.

Lemma float_of_raises (v : pyval) (e : exn) :
  float_of v = Raise e -> e <> ZeroDivisionError.
Proof.
  destruct v as [s|z|q|b|]; cbn [float_of]; try discriminate.
  - intros H. apply float_of_str_raises in H. congruence.
  - destruct (lit (inject_Z z)); try discriminate. intros [= <-]. discriminate.
  - intros [= <-]. discriminate.
Qed.

Lemma find_mom_raises (ws : sheet) (rows : list nat) (e : exn) :
  find_mom ws rows = Some (Raise e) -> e <> ZeroDivisionError.
Proof.
  induction rows as [|row rows IH]; [discriminate|].
  cbn [find_mom]. destruct (is_mom_label (value ws row 1)); [|exact IH].
  destruct (value ws row 2) as [v|]; [|exact IH].
  intros [= H]. exact (float_of_raises _ _ H).
Qed.

Lemma balance_of_raises (v : option pyval) (e : exn) :
  balance_of v = Raise e -> e <> ZeroDivisionError.
Proof.
  unfold balance_of. destruct v as [x|]; [|discriminate].
  destruct (truthy (Some x)); [apply float_of_raises | discriminate].
Qed.

Lemma read_balances_raises (ws : sheet) (rows : list nat)
    (aug sep : option pyfloat) (e : exn) :
  read_balances ws rows aug sep = Raise e -> e <> ZeroDivisionError.
Proof.
  revert aug sep. induction rows as [|row rows IH]; intros aug sep;
    [discriminate|].
  cbn [read_balances].
  destruct (is_str "GL Balance August" (value ws row 1)).
  - destruct (balance_of (value ws row 2)) as [x|e'] eqn:E.
    + rewrite bind_Ok. apply IH.
    + intros [= <-]. exact (balance_of_raises _ _ E).
  - destruct (is_str "GL Balance September" (value ws row 1)); [|apply IH].
    destruct (balance_of (value ws row 2)) as [x|e'] eqn:E.
    + rewrite bind_Ok. apply IH.
    + intros [= <-]. exact (balance_of_raises _ _ E).
Qed.

Lemma calculate_manually_raises (ws : sheet) (e : exn) :
  calculate_manually ws = Raise e -> e <> ZeroDivisionError.
Proof.
  unfold calculate_manually.
  destruct (read_balances ws (seq 1 19) None None) as [[aug sep]|e'] eqn:E.
  - rewrite bind_Ok. destruct aug as [a|], sep as [b|]; try discriminate.
    destruct (fnonzero a) eqn:Ha; [|discriminate].
    rewrite (percent_change_nonzero a b Ha). discriminate.
  - intros [= <-]. exact (read_balances_raises _ _ _ _ _ E).
Qed.

Lemma read_mom_percentage_try_raises (f : report) (e : exn) :
  read_mom_percentage_try f = Raise e -> e <> ZeroDivisionError.
Proof.
  destruct f as [|[ws|]]; [intros [= <-]; discriminate| |intros [= <-]; discriminate].
  rewrite (read_mom_percentage_try_loaded (Workbook (Some ws)) _ _ eq_refl eq_refl).
  destruct (find_mom _ _) as [r|] eqn:E.
  - intros ->. exact (find_mom_raises _ _ _ E).
  - apply calculate_manually_raises.
Qed.

(** C5, as stated, fails: with an August balance of 0 and a September
    balance of 50000 the percentage read is the number 0, as for a report
    whose balances are equal, and the run ends within the threshold. *)
Lemma zero_prior_balance_is_not_flagged :
  (exists ws, load_summary false (build_excel 125000 0 50000) = Ok ws /\
              read_balances ws (seq 1 19) None None
              = Ok (Some (lit 0), Some (lit 50000))) /\
  read_mom_percentage_try (build_excel 125000 0 50000) = Ok (lit 0) /\
  read_mom_percentage (build_excel 125000 0 50000) <> NaN /\
  main demo_world (build_excel 125000 0 50000)
  = (build_excel 125000 0 50000, WithinThreshold).
Proof.
  split; [eexists; split; [reflexivity | vm_compute; reflexivity]|].
  split; [vm_compute; reflexivity|].
  split; [vm_compute; discriminate | vm_compute; reflexivity].
Qed.

(** C5, amended. Reading the percentage never raises a division error;
    and when the report holds no percentage, so that the percentage is
    computed from the balances, and the August balance read from it is 0,
    the percentage is the number 0, and a run that reads it from its
    cleared report ends within the threshold. *)
Theorem zero_prior_balance_reads_zero (g : report) (values formulas : sheet)
    (a : pyfloat) (sep_balance : option pyfloat) :
  load_summary true g = Ok values ->
  load_summary false g = Ok formulas ->
  no_precomputed values ->
  read_balances formulas (seq 1 19) None None = Ok (Some a, sep_balance) ->
  fnonzero a = false ->
  read_mom_percentage_try g = Ok (lit 0) /\
  read_mom_percentage g = lit 0 /\
  (forall w f, clear_previous_reason f = g -> main w f = (g, WithinThreshold)) /\
  forall h, read_mom_percentage_try h <> Raise ZeroDivisionError.
Proof.
  intros Hvalues Hformulas Hnone Hbalances Ha.
  assert (Htry : read_mom_percentage_try g = Ok (lit 0)).
  { rewrite (read_mom_percentage_try_loaded g values formulas Hvalues Hformulas).
    rewrite (find_mom_none values 19 1) by (intros r Hr; apply Hnone; lia).
    unfold calculate_manually. rewrite Hbalances, bind_Ok.
    destruct sep_balance as [b|]; [|reflexivity].
    rewrite Ha. reflexivity. }
  assert (Hzero : read_mom_percentage g = lit 0)
    by (unfold read_mom_percentage; rewrite Htry; reflexivity).
  split; [exact Htry|]. split; [exact Hzero|]. split.
  - intros w f Hclear. unfold main, main_with. rewrite Hclear, Hzero.
    reflexivity.
  - intros h Hh. exact (read_mom_percentage_try_raises h _ Hh eq_refl).
Qed.

Lemma zero_prior_balance_reads_zero_witness :
  read_mom_percentage_try (build_excel 125000 0 50000) = Ok (lit 0) /\
  main demo_world (build_excel 125000 0 50000)
  = (build_excel 125000 0 50000, WithinThreshold).
Proof.
  destruct (zero_prior_balance_reads_zero (build_excel 125000 0 50000)
              (omap (view true) (built_summary 125000 0 50000))
              (omap (view false) (built_summary 125000 0 50000))
              (lit 0) (Some (lit 50000)))
    as (Htry & _ & Hmain & _).
  - reflexivity.
  - reflexivity.
  - intros r Hr.
    do 20 (destruct r as [|r]; [try lia; vm_compute; congruence|]). lia.
  - vm_compute. reflexivity.
  - reflexivity.
  - split; [exact Htry|]. apply Hmain. vm_compute. reflexivity.
Defined.

End InvestigatorFacts.

(** * Further properties of the two programs *)

(** ** The statement total: what it can return *)

Module ReconApMore.
Import ReconAp ReconApFacts.

(** The characters a cleaned word is made of. *)
Definition digit_or_point (c : ascii) : bool :=
  chr_isdigit c || Ascii.eqb c ".".

(** A float that is not negative: 0.0, a positive float or the positive
    infinity; not NaN. *)
Definition fnonneg (x : pyfloat) : bool :=
  match x with
  | S754_zero false | S754_infinity false | S754_finite false _ _ => true
  | _ => false
  end.

(** What a call of [float] on a cleaned word can do: return the float of
    a decimal that is not negative, a float that is not negative, or raise
    [ValueError]. *)
Definition amount_ok (r : result pyfloat) : Prop :=
  match r with
  | Ok v => fnonneg v = true /\ exists q, (0 <= q)%Q /\ v = lit q
  | Raise e => e = ValueError
  end.

(** Rounding keeps the sign: the steps of [SFdiv] on a quotient that is
    not negative. *)
Lemma shr_1_nonneg (mrs : shr_record) :
  (0 <= shr_m mrs)%Z -> (0 <= shr_m (shr_1 mrs))%Z.
Proof.
  destruct mrs as [m r s]. cbn [shr_m].
  destruct m as [|[p|p|]|p]; cbn; lia.
Qed.

Lemma iter_pos_invariant {A : Type} (P : A -> Prop) (f : A -> A)
    (p : positive) (x : A) :
  (forall y, P y -> P (f y)) -> P x -> P (SpecFloat.iter_pos f p x).
Proof.
  intros Hf. revert x.
  induction p as [p IH|p IH|]; intros x Hx; cbn [SpecFloat.iter_pos].
  - apply IH, IH, Hf, Hx.
  - apply IH, IH, Hx.
  - apply Hf, Hx.
Qed.

Lemma shr_fexp_nonneg (prec emax m e : Z) (l : location) :
  (0 <= m)%Z -> (0 <= shr_m (shr_fexp prec emax m e l).1)%Z.
Proof.
  intros Hm. unfold shr_fexp, shr.
  assert (H0 : (0 <= shr_m (shr_record_of_loc m l))%Z)
    by (destruct l as [|[]]; exact Hm).
  destruct (fexp prec emax (Zdigits2 m + e) - e)%Z as [|p|p]; cbn [fst];
    try exact H0.
  apply (iter_pos_invariant (fun mrs => (0 <= shr_m mrs)%Z));
    [apply shr_1_nonneg | exact H0].
Qed.

Lemma round_nearest_even_nonneg (m : Z) (l : location) :
  (0 <= m)%Z -> (0 <= round_nearest_even m l)%Z.
Proof.
  intros Hm. destruct l as [|[]]; cbn; try exact Hm;
    [destruct (Z.even m)|]; lia.
Qed.

Lemma binary_round_aux_sign (prec emax : Z) (sx : bool) (mx ex : Z)
    (lx : location) :
  (0 <= mx)%Z ->
  match binary_round_aux prec emax sx mx ex lx with
  | S754_zero s | S754_infinity s | S754_finite s _ _ => s = sx
  | S754_nan => False
  end.
Proof.
  intros Hm. unfold binary_round_aux.
  pose proof (shr_fexp_nonneg prec emax mx ex lx Hm) as H1.
  destruct (shr_fexp prec emax mx ex lx) as [mrs' e']. cbn [fst] in H1.
  pose proof (shr_fexp_nonneg prec emax _ e' loc_Exact
                (round_nearest_even_nonneg _ (loc_of_shr_record mrs') H1)) as H2.
  destruct (shr_fexp prec emax (round_nearest_even _ _) e' loc_Exact)
    as [mrs'' e''].
  cbn [fst] in H2.
  destruct (shr_m mrs'') as [|m|m]; [reflexivity| |lia].
  destruct (e'' <=? emax - prec)%Z; reflexivity.
Qed.

Lemma SFdiv_core_nonneg (prec emax : Z) (m1 m2 : positive) (e1 e2 : Z) :
  (0 <= (SFdiv_core_binary prec emax (Zpos m1) e1 (Zpos m2) e2).1.1)%Z.
Proof.
  unfold SFdiv_core_binary.
  set (s := (_ - _ - Z.min _ _)%Z).
  set (m' := match s with
             | Zpos _ => Z.shiftl (Zpos m1) s
             | Z0 => Zpos m1
             | Zneg _ => 0%Z
             end).
  assert (Hm' : (0 <= m')%Z).
  { unfold m'. destruct s; try lia. apply Z.shiftl_nonneg. lia. }
  pose proof (Z.div_pos m' (Zpos m2) Hm' eq_refl) as Hq.
  unfold Z.div in Hq. destruct (Z.div_eucl m' (Zpos m2)) as [q r]. exact Hq.
Qed.

Lemma lit_nonneg (q : Q) : (0 <= q)%Q -> fnonneg (lit q) = true.
Proof.
  intros Hq. unfold lit. unfold Qle in Hq. cbn in Hq.
  destruct (Qnum q) as [|n|n]; [reflexivity| |lia].
  unfold SFdiv.
  pose proof (SFdiv_core_nonneg 53 1024 n (Qden q) 0 0) as Hcore.
  destruct (SFdiv_core_binary 53 1024 (Zpos n) 0 (Zpos (Qden q)) 0)
    as [[mz ez] lz].
  cbn [fst] in Hcore.
  pose proof (binary_round_aux_sign 53 1024 (xorb false false) mz ez lz Hcore)
    as H.
  destruct (binary_round_aux 53 1024 (xorb false false) mz ez lz)
    as [s|s| |s m e]; try contradiction; subst s; reflexivity.
Qed.

Lemma amount_of_decimal (q : Q) : (0 <= q)%Q -> amount_ok (Ok (lit q)).
Proof.
  intros Hq. split; [exact (lit_nonneg q Hq)|].
  exists q. split; [exact Hq | reflexivity].
Qed.

Lemma clean_chars (word : string) : str_all digit_or_point (clean word) = true.
Proof.
  unfold clean, remove. induction word as [|c word IH]; [reflexivity|].
  cbn [str_keep].
  destruct (chr_isdigit c || Ascii.eqb c "." || Ascii.eqb c ",") eqn:E1;
    [|exact IH].
  cbn [str_keep]. destruct (Ascii.eqb c ",") eqn:E2; cbn [negb]; [exact IH|].
  cbn [str_all]. rewrite IH. unfold digit_or_point.
  rewrite orb_false_r in E1. rewrite E1. reflexivity.
Qed.

Lemma str_all_lstrip (P space : ascii -> bool) (s : string) :
  str_all P s = true -> str_all P (lstrip_with space s) = true.
Proof.
  induction s as [|c s IH]; [reflexivity|].
  cbn [lstrip_with]. destruct (space c); [|intros H; exact H].
  cbn [str_all]. intros H. apply andb_true_iff in H as [_ H]. exact (IH H).
Qed.

Lemma str_all_rev (P : ascii -> bool) (s acc : string) :
  str_all P acc = true -> str_all P s = true -> str_all P (str_rev acc s) = true.
Proof.
  revert acc. induction s as [|c s IH]; intros acc Hacc Hs; [exact Hacc|].
  cbn [str_rev]. cbn [str_all] in Hs. apply andb_true_iff in Hs as [Hc Hs].
  apply IH; [|exact Hs]. cbn [str_all]. rewrite Hc, Hacc. reflexivity.
Qed.

Lemma str_all_strip (P space : ascii -> bool) (s : string) :
  str_all P s = true -> str_all P (strip_with space s) = true.
Proof.
  intros H. unfold strip_with.
  apply str_all_rev; [reflexivity|]. apply str_all_lstrip.
  apply str_all_rev; [reflexivity|]. apply str_all_lstrip. exact H.
Qed.

(** A digit or a point is no sign and no letter of [inf] or [nan]. *)
Lemma digit_or_point_plain (c : ascii) :
  digit_or_point c = true ->
  Ascii.eqb c "-" = false /\ Ascii.eqb c "+" = false /\
  Ascii.eqb (chr_lower c) "i" = false /\ Ascii.eqb (chr_lower c) "n" = false.
Proof.
  destruct c as [[] [] [] [] [] [] [] []]; vm_compute; intros H;
    repeat split; congruence.
Qed.

Lemma scale10_nonneg (m : N) (e : Z) : (0 <= scale10 m e)%Q.
Proof.
  unfold scale10. destruct (0 <=? e)%Z eqn:He; unfold Qle; cbn [Qnum Qden].
  - apply Z.leb_le in He.
    assert (0 <= 10 ^ e)%Z by (apply Z.pow_nonneg; lia). nia.
  - lia.
Qed.

Lemma parse_number_nonneg (s : string) (q : Q) :
  parse_number s = Some q -> (0 <= q)%Q.
Proof.
  unfold parse_number. repeat case_match; try discriminate;
    intros [= <-]; apply scale10_nonneg.
Qed.

Lemma float_of_str_amount (s : string) :
  str_all digit_or_point s = true -> amount_ok (float_of_str s).
Proof.
  intros Hs. unfold float_of_str.
  pose proof (str_all_strip digit_or_point chr_isfloatspace s Hs) as Ht.
  destruct (strip_with chr_isfloatspace s) as [|c r]; [reflexivity|].
  cbn [str_all] in Ht. apply andb_true_iff in Ht as [Hc _].
  destruct (digit_or_point_plain c Hc) as (Hminus & Hplus & Hi & Hn).
  rewrite Hminus, Hplus.
  change (lower (String c r)) with (String (chr_lower c) (lower r)).
  change (String.eqb (String (chr_lower c) (lower r)) "inf")
    with (Ascii.eqb (chr_lower c) "i" && String.eqb (lower r) "nf").
  change (String.eqb (String (chr_lower c) (lower r)) "infinity")
    with (Ascii.eqb (chr_lower c) "i" && String.eqb (lower r) "nfinity").
  change (String.eqb (String (chr_lower c) (lower r)) "nan")
    with (Ascii.eqb (chr_lower c) "n" && String.eqb (lower r) "an").
  rewrite Hi, Hn. cbn [andb orb].
  destruct (parse_number (String c r)) as [q|] eqn:E; [|reflexivity].
  exact (amount_of_decimal q (parse_number_nonneg _ _ E)).
Qed.

Lemma last_amount_ok (words : list string) (r : result pyfloat) :
  last_amount words = Some r -> amount_ok r.
Proof.
  induction words as [|word words IH]; [discriminate|].
  cbn [last_amount]. destruct (number_like (clean word)); [|exact IH].
  intros [= <-]. apply float_of_str_amount, clean_chars.
Qed.

Lemma labeled_total_ok (lines : list string) (r : result pyfloat) :
  labeled_total lines = Some r -> amount_ok r.
Proof.
  induction lines as [|line lines IH]; [discriminate|].
  cbn [labeled_total]. destruct (mentions_total line); [|exact IH].
  destruct (last_amount (rev (split line))) as [r'|] eqn:E; [|exact IH].
  intros [= <-]. exact (last_amount_ok _ _ E).
Qed.

Lemma numbers_of_ok (words : list string) :
  match numbers_of words with
  | Ok numbers => Forall (fun v => amount_ok (Ok v)) numbers
  | Raise e => e = ValueError
  end.
Proof.
  induction words as [|word words IH]; [constructor|].
  cbn [numbers_of]. destruct (number_like (clean word)); [|exact IH].
  pose proof (float_of_str_amount (clean word) (clean_chars word)) as Hx.
  destruct (float_of_str (clean word)) as [x|e]; [|exact Hx].
  cbn [mbind result_bind].
  destruct (numbers_of words) as [xs|e]; [|exact IH].
  cbn [mbind result_bind]. constructor; assumption.
Qed.

Lemma context_total_ok (lines : list string) (r : result pyfloat) :
  context_total lines = Some r -> amount_ok r.
Proof.
  induction lines as [|line lines IH]; [discriminate|].
  cbn [context_total]. destruct (money_context line); [|exact IH].
  pose proof (numbers_of_ok (split line)) as Hn.
  destruct (numbers_of (split line)) as [numbers|e].
  - destruct (last numbers) as [total|] eqn:E; [|exact IH].
    intros [= <-]. apply last_Some in E as [front ->].
    apply Forall_app in Hn as [_ Hn]. inversion Hn; assumption.
  - intros [= <-]. exact Hn.
Qed.

(** X1. Whatever the statement text, [extract_total_from_statement]
    returns a float that is neither negative nor NaN, the float of a
    decimal that is not negative (the positive infinity for a word of
    digits beyond the largest float), or raises [ValueError]: signs and
    brackets around a printed total are dropped by the cleaning of a word,
    and no other exception is raised. *)
Theorem extract_total_amount (pdf_text : option string) :
  amount_ok (extract_total_from_statement pdf_text).
Proof.
  unfold extract_total_from_statement.
  destruct pdf_text as [text|];
    [|apply (amount_of_decimal 125000); discriminate].
  destruct (labeled_total (rev (splitlines text))) as [r|] eqn:E1;
    [exact (labeled_total_ok _ _ E1)|].
  destruct (context_total (splitlines text)) as [r|] eqn:E2;
    [exact (context_total_ok _ _ E2)|].
  apply (amount_of_decimal 125000). discriminate.
Qed.

(** *** A statement without digits *)

Definition no_digit (s : string) : Prop := str_any chr_isdigit s = false.

Lemma str_any_append (f : ascii -> bool) (a b : string) :
  str_any f (a ++ b) = str_any f a || str_any f b.
Proof.
  induction a as [|c a IH]; [reflexivity|].
  change (String c a ++ b) with (String c (a ++ b)).
  cbn [str_any]. rewrite IH. apply orb_assoc.
Qed.

Lemma str_any_keep (f g : ascii -> bool) (s : string) :
  str_any f s = false -> str_any f (str_keep g s) = false.
Proof.
  induction s as [|c s IH]; [reflexivity|].
  cbn [str_any str_keep]. intros H. apply orb_false_iff in H as [Hc Hs].
  destruct (g c); [|exact (IH Hs)]. cbn [str_any]. rewrite Hc. exact (IH Hs).
Qed.

Lemma split_from_no_digit (s cur : string) :
  no_digit cur -> no_digit s -> Forall no_digit (split_from cur s).
Proof.
  unfold no_digit. revert cur. induction s as [|c s IH]; intros cur Hcur Hs.
  - cbn [split_from]. destruct (nonempty cur); repeat constructor. exact Hcur.
  - cbn [str_any] in Hs. apply orb_false_iff in Hs as [Hc Hs].
    cbn [split_from]. destruct (chr_isspace c).
    + destruct (nonempty cur); [constructor; [exact Hcur|]|];
        apply IH; [reflexivity|exact Hs|reflexivity|exact Hs].
    + apply IH; [|exact Hs]. rewrite str_any_append. cbn [str_any].
      rewrite Hcur, Hc. reflexivity.
Qed.

Lemma splitlines_from_no_digit (n : nat) (s cur : string) :
  String.length s <= n ->
  no_digit cur -> no_digit s -> Forall no_digit (splitlines_from cur s).
Proof.
  unfold no_digit. revert s cur.
  induction n as [|n IH]; intros s cur Hn Hcur Hs;
    destruct s as [|c s]; cbn [String.length] in Hn; try lia;
    try (cbn [splitlines_from]; destruct (nonempty cur); repeat constructor;
         exact Hcur).
  cbn [str_any] in Hs. apply orb_false_iff in Hs as [Hc Hs].
  cbn [splitlines_from]. destruct (chr_islinebreak c).
  - constructor; [exact Hcur|]. destruct s as [|c' s'].
    + apply IH; [cbn; lia|reflexivity|reflexivity].
    + cbn [str_any] in Hs. apply orb_false_iff in Hs as [Hc' Hs'].
      destruct ((ord c =? 13)%nat && (ord c' =? 10)%nat).
      * apply IH; [cbn [String.length] in Hn; lia|reflexivity|exact Hs'].
      * apply IH; [lia|reflexivity|]. cbn [str_any]. rewrite Hc', Hs'. reflexivity.
  - apply IH; [lia| |exact Hs]. rewrite str_any_append. cbn [str_any].
    rewrite Hcur, Hc. reflexivity.
Qed.

Lemma clean_no_digit (word : string) :
  no_digit word -> number_like (clean word) = false.
Proof.
  unfold no_digit, number_like, clean, remove, isdigit. intros H.
  assert (Hx : forall x, str_any chr_isdigit x = false ->
                         nonempty x && str_all chr_isdigit x = false).
  { intros [|c x]; [reflexivity|]. cbn [str_any nonempty str_all].
    intros Hc. apply orb_false_iff in Hc as [-> _]. reflexivity. }
  rewrite Hx; [apply andb_false_r|]. do 3 apply str_any_keep. exact H.
Qed.

Lemma last_amount_no_digit (words : list string) :
  Forall no_digit words -> last_amount words = None.
Proof.
  induction 1 as [|word words Hword _ IH]; [reflexivity|].
  cbn [last_amount]. rewrite (clean_no_digit word Hword). exact IH.
Qed.

Lemma labeled_total_no_digit (lines : list string) :
  Forall no_digit lines -> labeled_total lines = None.
Proof.
  induction 1 as [|line lines Hline _ IH]; [reflexivity|].
  cbn [labeled_total]. rewrite last_amount_no_digit.
  - destruct (mentions_total line); exact IH.
  - apply Forall_rev, split_from_no_digit; [reflexivity | exact Hline].
Qed.

Lemma no_digit_no_decimal (s : string) :
  no_digit s -> str_any chr_isdecimal s = false.
Proof.
  unfold no_digit. induction s as [|c s IH]; [reflexivity|].
  cbn [str_any]. intros H. apply orb_false_iff in H as [Hc Hs].
  rewrite (IH Hs). unfold chr_isdigit in Hc. unfold chr_isdecimal.
  apply orb_false_iff in Hc as [Hc _]. apply orb_false_iff in Hc as [Hc _].
  apply orb_false_iff in Hc as [-> _]. reflexivity.
Qed.

Lemma context_total_no_digit (lines : list string) :
  Forall no_digit lines -> context_total lines = None.
Proof.
  induction 1 as [|line lines Hline _ IH]; [reflexivity|].
  cbn [context_total]. unfold money_context.
  rewrite (no_digit_no_decimal line Hline), andb_false_r. exact IH.
Qed.

(** X2. A statement text without any digit gives the fallback total,
    whatever its lines say: no word is number-like, so neither search
    returns and nothing is converted. *)
Theorem extract_total_no_digit (text : string) :
  str_any chr_isdigit text = false ->
  extract_total_from_statement (Some text) = Ok EXPECTED_SUPPLIER_TOTAL.
Proof.
  intros H. unfold extract_total_from_statement.
  assert (Hlines : Forall no_digit (splitlines text))
    by (apply (splitlines_from_no_digit (String.length text));
        [lia | reflexivity | exact H]).
  rewrite labeled_total_no_digit by (apply Forall_rev; exact Hlines).
  rewrite context_total_no_digit by exact Hlines. reflexivity.
Qed.

Lemma extract_total_no_digit_witness :
  extract_total_from_statement
    (Some ("Total balance due: see attached." ++ nl ++ "Amount in $ to follow."))
  = Ok EXPECTED_SUPPLIER_TOTAL.
Proof.
  apply extract_total_no_digit. vm_compute. reflexivity.
Defined.

(** ** The ledger balances: the rows that count *)

(** A row that counts for neither balance: of another account, or dated
    in neither August nor September (an unparsable date included). *)
Definition outside (row : LedgerRow) : Prop :=
  String.eqb (account_code row) AP_ACCOUNT_CODE = false \/
  (in_month 8 row = false /\ in_month 9 row = false).

(** X4. A row of another account, or dated in neither August nor
    September, or with a date that could not be parsed, changes nothing:
    with or without it, wherever it stands, the three results are the
    same. *)
Theorem filter_ap_activity_outside (df1 df2 : list LedgerRow) (row : LedgerRow) :
  outside row ->
  filter_ap_activity (df1 ++ row :: df2)%list
  = filter_ap_activity (df1 ++ df2)%list.
Proof.
  intros Hrow. unfold filter_ap_activity, month_balance.
  rewrite !List.filter_app. cbn [List.filter].
  destruct Hrow as [-> | [H8 H9]]; [reflexivity|].
  destruct (String.eqb (account_code row) AP_ACCOUNT_CODE); [|reflexivity].
  cbn [List.filter]. rewrite H8, H9. reflexivity.
Qed.

Definition row_october : LedgerRow :=
  {| date := Some {| year := 2025; month := 10; day := 1 |};
     account_code := "2000"; credit := lit 5; debit := NaN |}.

Lemma filter_ap_activity_outside_witness :
  filter_ap_activity [row_aug; row_october; row_sep]
  = filter_ap_activity [row_aug; row_sep].
Proof.
  apply (filter_ap_activity_outside [row_aug] [row_sep] row_october).
  right. split; reflexivity.
Defined.

(** Two rows alike but for the year and the day of their dates. *)
Definition same_month (row row' : LedgerRow) : Prop :=
  account_code row = account_code row' /\
  credit row = credit row' /\ debit row = debit row' /\
  month <$> date row = month <$> date row'.

Lemma same_month_in_month (m : nat) (row row' : LedgerRow) :
  same_month row row' -> in_month m row = in_month m row'.
Proof.
  intros (_ & _ & _ & H). unfold in_month.
  destruct (date row) as [d|], (date row') as [d'|]; try discriminate;
    [|reflexivity].
  injection H as ->. reflexivity.
Qed.

Lemma same_month_filter (p : LedgerRow -> bool) (df df' : list LedgerRow) :
  (forall row row', same_month row row' -> p row = p row') ->
  Forall2 same_month df df' ->
  Forall2 same_month (List.filter p df) (List.filter p df').
Proof.
  intros Hp. induction 1 as [|row row' df df' Hrow _ IH]; [constructor|].
  cbn [List.filter]. rewrite (Hp row row' Hrow).
  destruct (p row'); [constructor; assumption | exact IH].
Qed.

Lemma same_month_amounts (df df' : list LedgerRow) :
  Forall2 same_month df df' ->
  credit <$> df = credit <$> df' /\ debit <$> df = debit <$> df'.
Proof.
  induction 1 as [|row row' df df' (_ & Hc & Hd & _) _ [IHc IHd]];
    [split; reflexivity|].
  cbn [fmap list_fmap] in *. rewrite Hc, Hd, IHc, IHd. split; reflexivity.
Qed.

(** X5. Only the month of a date is looked at: when the rows of two
    ledgers agree on account, amounts and month, whatever their years and
    days, the results are the same; the rows of every August are counted
    together. *)
Theorem filter_ap_activity_year_blind (df df' : list LedgerRow) :
  Forall2 same_month df df' ->
  filter_ap_activity df = filter_ap_activity df'.
Proof.
  intros H. unfold filter_ap_activity, month_balance.
  assert (Hacc : Forall2 same_month
            (List.filter
               (fun row => String.eqb (account_code row) AP_ACCOUNT_CODE) df)
            (List.filter
               (fun row => String.eqb (account_code row) AP_ACCOUNT_CODE) df')).
  { apply same_month_filter; [|exact H].
    intros row row' (Ha & _). rewrite Ha. reflexivity. }
  destruct (same_month_amounts _ _
              (same_month_filter (in_month 8) _ _ (same_month_in_month 8) Hacc))
    as [-> ->].
  destruct (same_month_amounts _ _
              (same_month_filter (in_month 9) _ _ (same_month_in_month 9) Hacc))
    as [-> ->].
  reflexivity.
Qed.

Definition row_aug_2019 : LedgerRow :=
  {| date := Some {| year := 2019; month := 8; day := 1 |};
     account_code := "2000"; credit := lit 100000; debit := lit 0 |}.

Lemma filter_ap_activity_year_blind_witness :
  filter_ap_activity [row_aug_2019; row_sep] = filter_ap_activity [row_aug; row_sep].
Proof.
  apply filter_ap_activity_year_blind.
  repeat constructor.
Defined.

End ReconApMore.

(** ** The two writers of the report *)

Module InvestigatorMore.
Import Investigator InvestigatorFacts.

(** Two cells differ: by their columns, or by their rows. *)
Ltac cell_ne :=
  let E := fresh "E" in
  solve [ congruence
        | intros E; apply (f_equal fst) in E; cbn [fst] in E; lia ].

(** A sheet as it is in memory after a load without [data_only]: no
    formula carries a computed result. *)
Definition plain (ws : sheet) : Prop :=
  forall k c, ws !! k = Some c -> view false c = Some c.

Lemma plain_load (ws : sheet) : plain (omap (view false) ws).
Proof.
  intros k c. rewrite lookup_omap.
  destruct (ws !! k) as [[v|body cached]|]; cbn; intros [= <-]; reflexivity.
Qed.

Lemma store_plain (v : pyval) : view false (store v) = Some (store v).
Proof.
  destruct v as [s| | | |]; try reflexivity.
  destruct s as [|c [|c' r]]; try reflexivity.
  cbn [store]. destruct (Ascii.eqb c "="); reflexivity.
Qed.

Lemma plain_assign (ws : sheet) (row col : nat) (v : option pyval) :
  plain ws -> plain (assign row col v ws).
Proof.
  intros H k c. unfold assign. destruct v as [v|].
  - rewrite lookup_insert. case_decide.
    + intros [= <-]. apply store_plain.
    + apply H.
  - rewrite lookup_delete. case_decide; [discriminate | apply H].
Qed.

Lemma plain_fixed (ws : sheet) : plain ws -> omap (view false) ws = ws.
Proof.
  intros H. apply map_eq. intros k. rewrite lookup_omap.
  destruct (ws !! k) as [c|] eqn:E; [exact (H k c E) | reflexivity].
Qed.

Lemma find_reason_ext (ws ws' : sheet) (rows : list nat) :
  (forall row, In row rows -> value ws row 1 = value ws' row 1) ->
  find_reason ws rows = find_reason ws' rows.
Proof.
  induction rows as [|row rows IH]; intros H; [reflexivity|].
  cbn [find_reason]. rewrite (H row) by (left; reflexivity).
  rewrite IH by (intros r Hr; apply H; right; exact Hr). reflexivity.
Qed.

Lemma last_data_row_ext (ws ws' : sheet) (rows : list nat) (last_row : nat) :
  (forall row, In row rows -> value ws row 1 = value ws' row 1) ->
  last_data_row ws rows last_row = last_data_row ws' rows last_row.
Proof.
  unfold last_data_row. revert last_row.
  induction rows as [|row rows IH]; intros last_row H; [reflexivity|].
  cbn [foldl]. rewrite (H row) by (left; reflexivity).
  apply IH. intros r Hr. apply H. right. exact Hr.
Qed.

Lemma find_reason_first (ws : sheet) (n a row : nat) :
  a <= row < a + n ->
  is_reason_label (value ws row 1) = true ->
  (forall r, a <= r < row -> is_reason_label (value ws r 1) = false) ->
  find_reason ws (seq a n) = Some row.
Proof.
  revert a. induction n as [|n IH]; intros a Hrow Hlabel Hbefore; [lia|].
  cbn [seq find_reason]. destruct (decide (a = row)) as [->|Hne].
  - rewrite Hlabel. reflexivity.
  - rewrite (Hbefore a) by lia. apply IH; [lia|exact Hlabel|].
    intros r Hr. apply Hbefore. lia.
Qed.

(** The two writers on a report whose sheet is [ws], in terms of the
    sheet as loaded. *)
Lemma clear_loaded (ws : sheet) :
  clear_previous_reason (Workbook (Some ws))
  = clear_previous_reason (Workbook (Some (omap (view false) ws))).
Proof.
  unfold clear_previous_reason. cbn [load_summary].
  rewrite (plain_fixed _ (plain_load ws)). reflexivity.
Qed.

Lemma update_plain (reason text : string) (ws : sheet) :
  plain ws ->
  check_string reason = Ok text ->
  update_excel_with_reason reason (Workbook (Some ws))
  = Workbook (Some (reason_written text ws)).
Proof.
  intros H Hcheck.
  rewrite (update_accepted reason text (Workbook (Some ws)) _ eq_refl Hcheck).
  rewrite (plain_fixed ws H). reflexivity.
Qed.

Lemma clear_plain (ws : sheet) :
  plain ws ->
  clear_previous_reason (Workbook (Some ws)) = Workbook (Some (reason_cleared ws)).
Proof.
  intros H. unfold clear_previous_reason, reason_cleared. cbn [load_summary].
  rewrite (plain_fixed ws H). reflexivity.
Qed.

Lemma reason_written_plain (text : string) (ws : sheet) :
  plain ws -> plain (reason_written text ws).
Proof.
  intros H. unfold reason_written.
  destruct (find_reason ws (seq 1 49)); repeat apply plain_assign; exact H.
Qed.

Lemma reason_cleared_plain (ws : sheet) : plain ws -> plain (reason_cleared ws).
Proof.
  intros H. unfold reason_cleared.
  destruct (find_reason ws (seq 1 49)); repeat apply plain_assign; exact H.
Qed.

Lemma last_data_row_bound (ws : sheet) :
  1 <= last_data_row ws (seq 1 49) 1 <= 49.
Proof.
  destruct (last_data_row_seq ws 49 1 1) as [[->|[H _]] _]; lia.
Qed.

Lemma no_reason_before (ws : sheet) :
  find_reason ws (seq 1 49) = None ->
  forall r, 1 <= r <= 49 -> is_reason_label (value ws r 1) = false.
Proof.
  intros H r Hr. pose proof (find_reason_seq ws 49 1) as Hseq.
  rewrite H in Hseq. apply Hseq. lia.
Qed.

(** After the Reason has been written where none was, the search finds it
    if it went into one of the rows 1..49, and not if it went into row 50. *)
Lemma find_reason_written (text : string) (ws : sheet) :
  find_reason ws (seq 1 49) = None ->
  let n := last_data_row ws (seq 1 49) 1 + 1 in
  find_reason (reason_written text ws) (seq 1 49)
  = if decide (n <= 49) then Some n else None.
Proof.
  intros Hnone n. unfold reason_written. rewrite Hnone. fold n.
  pose proof (last_data_row_bound ws) as Hlast.
  case_decide as Hn.
  - apply find_reason_first; [lia| |].
    + rewrite value_assign_ne by congruence. rewrite value_assign_eq. reflexivity.
    + intros r Hr. rewrite !value_assign_ne by cell_ne.
      apply (no_reason_before ws Hnone). lia.
  - rewrite <- Hnone. apply find_reason_ext. intros r Hr.
    apply in_seq in Hr. rewrite !value_assign_ne by cell_ne.
    reflexivity.
Qed.

Lemma reason_written_twice (text1 text2 : string) (ws : sheet) :
  reason_written text2 (reason_written text1 ws) = reason_written text2 ws.
Proof.
  destruct (find_reason ws (seq 1 49)) as [row|] eqn:Hfind.
  - unfold reason_written at 1.
    replace (find_reason (reason_written text1 ws) (seq 1 49)) with (Some row).
    + unfold reason_written. rewrite Hfind. unfold assign.
      apply insert_insert_eq.
    + rewrite <- Hfind. apply find_reason_ext. intros r _.
      unfold reason_written. rewrite Hfind.
      rewrite value_assign_ne by congruence. reflexivity.
  - unfold reason_written at 1.
    rewrite (find_reason_written text1 ws Hfind). cbv zeta.
    case_decide as Hn.
    + unfold reason_written. rewrite Hfind. unfold assign.
      apply insert_insert_eq.
    + replace (last_data_row (reason_written text1 ws) (seq 1 49) 1)
        with (last_data_row ws (seq 1 49) 1).
      * unfold reason_written. rewrite Hfind. unfold assign. cbv zeta.
        apply map_eq. intros k. rewrite !lookup_insert.
        repeat case_decide; congruence.
      * apply last_data_row_ext. intros r Hr. apply in_seq in Hr.
        unfold reason_written. rewrite Hfind. cbv zeta.
        rewrite !value_assign_ne by cell_ne. reflexivity.
Qed.

(** X6. The last narrative the workbook accepts wins: when the second of
    two narratives is accepted, writing the first and then the second
    leaves the report as writing the second alone does, on every report;
    when the second is refused, the report stays as the first left it. *)
Theorem update_excel_with_reason_twice (reason1 reason2 : string) (f : report) :
  update_excel_with_reason reason2 (update_excel_with_reason reason1 f)
  = match check_string reason2 with
    | Ok _ => update_excel_with_reason reason2 f
    | Raise _ => update_excel_with_reason reason1 f
    end.
Proof.
  destruct (check_string reason2) as [text2|e2] eqn:Hcheck2;
    [|exact (update_refused _ _ _ Hcheck2)].
  destruct (check_string reason1) as [text1|e1] eqn:Hcheck1;
    [|rewrite (update_refused reason1 f _ Hcheck1); reflexivity].
  destruct f as [|[ws|]]; [reflexivity| |reflexivity].
  rewrite (update_accepted reason1 text1 (Workbook (Some ws)) _ eq_refl Hcheck1).
  rewrite (update_accepted reason2 text2 (Workbook (Some ws)) _ eq_refl Hcheck2).
  pose proof (plain_load ws) as Hplain.
  set (W := omap (view false) ws) in *. clearbody W.
  unfold save.
  rewrite (update_plain reason2 text2 _ (reason_written_plain text1 W Hplain) Hcheck2).
  rewrite reason_written_twice. reflexivity.
Qed.

Lemma find_reason_view (ws : sheet) (rows : list nat) :
  find_reason (omap (view false) ws) rows = find_reason ws rows.
Proof. apply find_reason_ext. intros row _. apply value_view. Qed.

Lemma last_data_row_view (ws : sheet) (rows : list nat) (last_row : nat) :
  last_data_row (omap (view false) ws) rows last_row
  = last_data_row ws rows last_row.
Proof. apply last_data_row_ext. intros row _. apply value_view. Qed.

(** X7. Writing a Reason and clearing it leaves the report as clearing
    alone does, when the report has a Reason row among its rows 1..49, or
    when the row after its last row with data is one of the rows 1..49 and
    is empty in columns A and B. *)
Theorem clear_after_update (reason : string) (ws : sheet) :
  (find_reason ws (seq 1 49) = None ->
   let n := last_data_row ws (seq 1 49) 1 + 1 in
   n <= 49 /\ ws !! (n, 1) = None /\ ws !! (n, 2) = None) ->
  clear_previous_reason (update_excel_with_reason reason (Workbook (Some ws)))
  = clear_previous_reason (Workbook (Some ws)).
Proof.
  intros Hfree.
  destruct (check_string reason) as [text|e] eqn:Hcheck;
    [|rewrite (update_refused _ _ _ Hcheck); reflexivity].
  rewrite (update_accepted reason text (Workbook (Some ws)) _ eq_refl Hcheck).
  rewrite (clear_loaded ws). unfold save.
  pose proof (plain_load ws) as Hplain.
  rewrite <- (find_reason_view ws), <- (last_data_row_view ws) in Hfree.
  assert (Hfree' : find_reason (omap (view false) ws) (seq 1 49) = None ->
            let n := last_data_row (omap (view false) ws) (seq 1 49) 1 + 1 in
            n <= 49 /\ omap (view false) ws !! (n, 1) = None /\
            omap (view false) ws !! (n, 2) = None).
  { intros Hnone. destruct (Hfree Hnone) as (Hn & H1 & H2).
    cbv zeta. rewrite !lookup_omap, H1, H2. repeat split; [exact Hn|..]; reflexivity. }
  clear Hfree. set (W := omap (view false) ws) in *. clearbody W.
  rewrite (clear_plain _ (reason_written_plain text W Hplain)).
  rewrite (clear_plain W Hplain). do 2 f_equal.
  destruct (find_reason W (seq 1 49)) as [row|] eqn:Hfind.
  - unfold reason_cleared at 1.
    replace (find_reason (reason_written text W) (seq 1 49)) with (Some row).
    + unfold reason_cleared, reason_written. rewrite Hfind. unfold assign.
      apply map_eq. intros k.
      repeat first [rewrite lookup_delete | rewrite lookup_insert].
      repeat case_decide; congruence.
    + rewrite <- Hfind. apply find_reason_ext. intros r _.
      unfold reason_written. rewrite Hfind.
      rewrite value_assign_ne by cell_ne. reflexivity.
  - destruct (Hfree' eq_refl) as (Hn & H1 & H2).
    unfold reason_cleared at 1.
    rewrite (find_reason_written text W Hfind). cbv zeta.
    rewrite decide_True by exact Hn.
    unfold reason_cleared, reason_written. rewrite Hfind. unfold assign.
    cbv zeta. apply map_eq. intros k.
    repeat first [rewrite lookup_delete | rewrite lookup_insert].
    repeat case_decide; congruence.
Qed.

Lemma clear_after_update_witness :
  clear_previous_reason
    (update_excel_with_reason "narrative" (build_excel 125000 100000 140000))
  = clear_previous_reason (build_excel 125000 100000 140000).
Proof.
  apply clear_after_update. intros _. vm_compute. repeat split. lia.
Defined.

(** X8. [clear_previous_reason] empties columns A and B of the first of
    the rows 1..49 that reads "reason" in column A and leaves the content
    of every other cell; without such a row, or without a readable summary
    sheet, it changes no content. A second Reason row, or one below row 49,
    stays. *)
Theorem clear_previous_reason_frame (f : report) :
  match f with
  | Workbook (Some ws) =>
      exists ws',
        clear_previous_reason f = Workbook (Some ws') /\
        ((exists row,
            first_reason_row ws row /\
            value ws' row 1 = None /\ value ws' row 2 = None /\
            forall r c, (r, c) <> (row, 1) -> (r, c) <> (row, 2) ->
                        value ws' r c = value ws r c)
         \/
         ((forall r, 1 <= r <= 49 -> is_reason_label (value ws r 1) = false) /\
          forall r c, value ws' r c = value ws r c))
  | _ => clear_previous_reason f = f
  end.
Proof.
  destruct f as [|[ws|]]; [reflexivity| |reflexivity].
  unfold clear_previous_reason. cbn [load_summary].
  set (loaded := omap (view false) ws).
  assert (Hsame : forall r c, value loaded r c = value ws r c)
    by (intros r c; apply value_view).
  pose proof (find_reason_seq loaded 49 1) as Hfind.
  destruct (find_reason loaded (seq 1 49)) as [row|].
  - eexists. split; [reflexivity|]. left. exists row.
    destruct Hfind as (Hrow & Hlabel & Hbefore). split; [|split; [|split]].
    + split; [lia|]. rewrite <- Hsame. split; [exact Hlabel|].
      intros r Hr. rewrite <- Hsame. apply Hbefore. lia.
    + rewrite value_assign_ne by congruence. apply value_assign_eq.
    + apply value_assign_eq.
    + intros r c H1 H2. rewrite !value_assign_ne by congruence. apply Hsame.
  - eexists. split; [reflexivity|]. right. split.
    + intros r Hr. rewrite <- Hsame. apply Hfind. lia.
    + exact Hsame.
Qed.

(** X18. On a report without a readable summary sheet, or with a
    narrative the workbook refuses, [update_excel_with_reason] changes
    nothing. Otherwise it changes at most two cells: if a row among the
    first 49 reads "reason" in column A, whatever the case, the column B
    cell of the first such row receives the narrative as the workbook takes
    it; if none does, columns A and B of the row after the last of the
    first 49 rows with data in column A (row 2 when they have none) receive
    "Reason" and the narrative, whatever they held. The content of every
    other cell stays as it was. *)
Theorem update_excel_with_reason_frame (reason : string) (f : report) :
  match f, check_string reason with
  | Workbook (Some ws), Ok text =>
      exists ws',
        update_excel_with_reason reason f = Workbook (Some ws') /\
        ((exists row,
            first_reason_row ws row /\
            value ws' row 2 = Some (VStr text) /\
            forall r c, (r, c) <> (row, 2) -> value ws' r c = value ws r c)
         \/
         ((forall r, 1 <= r <= 49 -> is_reason_label (value ws r 1) = false) /\
          exists last,
            last_data ws last /\
            value ws' (last + 1) 1 = Some (VStr "Reason") /\
            value ws' (last + 1) 2 = Some (VStr text) /\
            forall r c, (r, c) <> (last + 1, 1) -> (r, c) <> (last + 1, 2) ->
                        value ws' r c = value ws r c))
  | _, _ => update_excel_with_reason reason f = f
  end.
Proof.
  destruct f as [|[ws|]];
    [destruct (check_string reason); reflexivity |
     |destruct (check_string reason); reflexivity].
  destruct (check_string reason) as [text|e] eqn:Hcheck;
    [|exact (update_refused _ _ _ Hcheck)].
  rewrite (update_accepted reason text (Workbook (Some ws)) _ eq_refl Hcheck).
  unfold reason_written.
  set (loaded := omap (view false) ws).
  assert (Hsame : forall r c, value loaded r c = value ws r c)
    by (intros r c; apply value_view).
  pose proof (find_reason_seq loaded 49 1) as Hfind.
  destruct (find_reason loaded (seq 1 49)) as [row|].
  - eexists. split; [reflexivity|]. left. exists row.
    destruct Hfind as (Hrow & Hlabel & Hbefore). split; [|split].
    + split; [lia|]. rewrite <- Hsame. split; [exact Hlabel|].
      intros r Hr. rewrite <- Hsame. apply Hbefore. lia.
    + apply value_assign_eq.
    + intros r c Hne. rewrite value_assign_ne by congruence. apply Hsame.
  - eexists. split; [reflexivity|]. right. split.
    + intros r Hr. rewrite <- Hsame. apply Hfind. lia.
    + exists (last_data_row loaded (seq 1 49) 1).
      pose proof (last_data_row_last loaded) as [Hlast Hafter].
      split; [|split; [|split]].
      * split.
        -- destruct Hlast as [Hlast|[Hrange Htruthy]]; [left; exact Hlast|].
           right. split; [exact Hrange|]. rewrite <- Hsame. exact Htruthy.
        -- intros r Hr. rewrite <- Hsame. apply Hafter. exact Hr.
      * rewrite value_assign_ne by congruence. apply value_assign_eq.
      * apply value_assign_eq.
      * intros r c Hne1 Hne2. rewrite !value_assign_ne by congruence.
        apply Hsame.
Qed.

(** X9. After [clear_previous_reason] has saved the workbook, or
    [update_excel_with_reason] has with a narrative the workbook accepts,
    no formula of the summary sheet carries a computed result: read with
    [data_only], each of its formula cells is empty. (A refused narrative
    leaves the file, and the results it holds, as they were.) *)
Theorem saved_formulas_have_no_result (reason : string) (f : report)
    (ws' : sheet) :
  clear_previous_reason f = Workbook (Some ws') \/
  ((exists text, check_string reason = Ok text) /\
   update_excel_with_reason reason f = Workbook (Some ws')) ->
  forall row col body cached,
    ws' !! (row, col) = Some (Formula body cached) ->
    cached = None /\
    forall ws'', load_summary true (Workbook (Some ws')) = Ok ws'' ->
                 value ws'' row col = None.
Proof.
  intros Hsaved row col body cached Hcell.
  assert (Hplain : plain ws').
  { destruct f as [|[ws|]];
      [destruct Hsaved as [H|[_ H]]; discriminate|
      |destruct Hsaved as [H|[_ H]]; discriminate].
    destruct Hsaved as [H|[[text Hcheck] H]].
    - rewrite clear_loaded, (clear_plain _ (plain_load ws)) in H.
      injection H as <-. apply reason_cleared_plain, plain_load.
    - rewrite (update_accepted reason text (Workbook (Some ws)) _ eq_refl Hcheck)
        in H.
      injection H as <-. apply reason_written_plain, plain_load. }
  pose proof (Hplain _ _ Hcell) as Hview. injection Hview as <-.
  split; [reflexivity|].
  intros ws'' [= <-]. unfold value. rewrite lookup_omap, Hcell. reflexivity.
Qed.

Lemma saved_formulas_have_no_result_witness :
  exists ws',
    clear_previous_reason recalculated = Workbook (Some ws') /\
    ws' !! (7, 2) = Some (Formula "(B4-B3)/B3*100" None) /\
    value (omap (view true) ws') 7 2 = None.
Proof.
  eexists. split; [reflexivity|]. split; [vm_compute; reflexivity|].
  eapply (saved_formulas_have_no_result "narrative" recalculated);
    [left; reflexivity | vm_compute; reflexivity | reflexivity].
Defined.

(** X10. A run does not depend on the results the spreadsheet application
    computed: two workbooks whose summary sheets hold the same constants
    and formulas give the same report and the same ending. *)
Theorem main_ignores_computed_results (t : pyfloat) (w : world)
    (ws ws' : sheet) :
  (forall k, ws !! k ≫= view false = ws' !! k ≫= view false) ->
  main_with t w (Workbook (Some ws)) = main_with t w (Workbook (Some ws')).
Proof.
  intros Hsame.
  assert (Hloaded : omap (view false) ws = omap (view false) ws')
    by (apply map_eq; intros k; rewrite !lookup_omap; apply Hsame).
  assert (Hclear : clear_previous_reason (Workbook (Some ws))
                   = clear_previous_reason (Workbook (Some ws')))
    by (rewrite (clear_loaded ws), (clear_loaded ws'), Hloaded; reflexivity).
  unfold main_with. rewrite Hclear. reflexivity.
Qed.

Lemma main_ignores_computed_results_witness :
  main demo_world recalculated
  = main demo_world (build_excel 125000 100000 140000).
Proof.
  apply main_ignores_computed_results.
  intros k.
  unfold built_summary. cbn [list_to_map foldr fst snd].
  rewrite !lookup_insert. repeat case_decide; first [reflexivity | congruence].
Defined.

(** ** From the report as built to the decision of a run *)

Lemma clear_built_report (statement_total aug sep : Q) :
  clear_previous_reason (build_excel statement_total aug sep)
  = build_excel statement_total aug sep.
Proof. vm_compute. reflexivity. Qed.

Lemma built_no_precomputed (statement_total aug sep : Q) :
  find_mom (omap (view true) (built_summary statement_total aug sep)) (seq 1 19)
  = None.
Proof.
  apply (find_mom_none _ 19 1). intros r Hr.
  do 20 (destruct r as [|r]; [try lia; vm_compute; congruence|]). lia.
Qed.

(** The balance read from a number cell: its float, and 0.0 for a cell
    whose float is a zero. *)
Definition read_number (q : Q) : pyfloat :=
  if fnonzero (lit q) then lit q else lit 0.

Lemma balance_of_number (q : Q) :
  balance_of (Some (VNum q)) = Ok (read_number q).
Proof.
  unfold balance_of, truthy, read_number, float_of.
  destruct (fnonzero (lit q)); reflexivity.
Qed.

(** Columns A and B of the report as built, as loaded without
    [data_only]. *)
Definition built_cell (statement_total aug sep : Q) (row col : nat)
  : option pyval :=
  match row, col with
  | 1, 1 => Some (VStr "Item")
  | 1, 2 => Some (VStr "Amount")
  | 2, 1 => Some (VStr "Statement Closing Balance")
  | 2, 2 => Some (VNum statement_total)
  | 3, 1 => Some (VStr "GL Balance August")
  | 3, 2 => Some (VNum aug)
  | 4, 1 => Some (VStr "GL Balance September")
  | 4, 2 => Some (VNum sep)
  | 5, 1 => Some (VStr "Movement MoM")
  | 5, 2 => Some (VStr "=B4-B3")
  | 6, 1 => Some (VStr "Variance")
  | 6, 2 => Some (VStr "=B2-B4")
  | 7, 1 => Some (VStr "MoM % Change")
  | 7, 2 => Some (VStr "=(B4-B3)/B3*100")
  | _, _ => None
  end.

Lemma built_cell_value (statement_total aug sep : Q) (row : nat) :
  1 <= row <= 19 ->
  value (omap (view false) (built_summary statement_total aug sep)) row 1
  = built_cell statement_total aug sep row 1 /\
  value (omap (view false) (built_summary statement_total aug sep)) row 2
  = built_cell statement_total aug sep row 2.
Proof.
  intros Hrow.
  do 20 (destruct row as [|row]; [try lia; split; vm_compute; reflexivity|]).
  lia.
Qed.

Lemma read_balances_skip (ws : sheet) (row : nat) (rest : list nat)
    (aug sep : option pyfloat) :
  is_str "GL Balance August" (value ws row 1) = false ->
  is_str "GL Balance September" (value ws row 1) = false ->
  read_balances ws (row :: rest) aug sep = read_balances ws rest aug sep.
Proof. intros H1 H2. cbn [read_balances]. rewrite H1, H2. reflexivity. Qed.

Lemma read_balances_august (ws : sheet) (row : nat) (rest : list nat)
    (aug sep : option pyfloat) (x : pyfloat) :
  is_str "GL Balance August" (value ws row 1) = true ->
  balance_of (value ws row 2) = Ok x ->
  read_balances ws (row :: rest) aug sep = read_balances ws rest (Some x) sep.
Proof. intros H1 H2. cbn [read_balances]. rewrite H1, H2. reflexivity. Qed.

Lemma read_balances_september (ws : sheet) (row : nat) (rest : list nat)
    (aug sep : option pyfloat) (x : pyfloat) :
  is_str "GL Balance August" (value ws row 1) = false ->
  is_str "GL Balance September" (value ws row 1) = true ->
  balance_of (value ws row 2) = Ok x ->
  read_balances ws (row :: rest) aug sep = read_balances ws rest aug (Some x).
Proof.
  intros H1 H2 H3. cbn [read_balances]. rewrite H1, H2, H3. reflexivity.
Qed.

Lemma balances_of_built_cells (ws : sheet) (statement_total aug sep : Q) :
  (forall row, 1 <= row <= 19 ->
     value ws row 1 = built_cell statement_total aug sep row 1 /\
     value ws row 2 = built_cell statement_total aug sep row 2) ->
  read_balances ws (seq 1 19) None None
  = Ok (Some (read_number aug), Some (read_number sep)).
Proof.
  intros Hcell. cbn [seq].
  do 2 (match goal with
        | |- read_balances ws (?r :: _) _ _ = _ =>
            rewrite (read_balances_skip ws r)
              by (rewrite (proj1 (Hcell r ltac:(lia))); reflexivity)
        end).
  rewrite (read_balances_august ws 3 _ _ _ (read_number aug))
    by (first [ rewrite (proj1 (Hcell 3 ltac:(lia))); reflexivity
              | rewrite (proj2 (Hcell 3 ltac:(lia))); apply balance_of_number ]).
  rewrite (read_balances_september ws 4 _ _ _ (read_number sep))
    by (first [ rewrite (proj1 (Hcell 4 ltac:(lia))); reflexivity
              | rewrite (proj2 (Hcell 4 ltac:(lia))); apply balance_of_number ]).
  do 15 (match goal with
         | |- read_balances ws (?r :: _) _ _ = _ =>
             rewrite (read_balances_skip ws r)
               by (rewrite (proj1 (Hcell r ltac:(lia))); reflexivity)
         end).
  reflexivity.
Qed.

Lemma built_balances (statement_total aug sep : Q) :
  read_balances (omap (view false) (built_summary statement_total aug sep))
    (seq 1 19) None None
  = Ok (Some (read_number aug), Some (read_number sep)).
Proof.
  apply (balances_of_built_cells _ statement_total).
  apply built_cell_value.
Qed.

(** The percentage calculated from the number cells [aug] and [sep]. *)
Definition calculated_percentage (aug sep : Q) : pyfloat :=
  if fnonzero (lit aug)
  then fmul (fquot (fsub (read_number sep) (lit aug)) (lit aug)) (lit 100)
  else lit 0.

Lemma built_percentage (statement_total aug sep : Q) :
  read_mom_percentage (build_excel statement_total aug sep)
  = calculated_percentage aug sep.
Proof.
  unfold read_mom_percentage.
  rewrite (read_mom_percentage_try_loaded
             (build_excel statement_total aug sep) _ _ eq_refl eq_refl).
  rewrite built_no_precomputed. unfold calculate_manually.
  rewrite built_balances, bind_Ok.
  unfold calculated_percentage, read_number at 1 2.
  destruct (fnonzero (lit aug)) eqn:Ha; [|reflexivity].
  rewrite Ha, (percent_change_nonzero _ _ Ha). reflexivity.
Qed.

(** X11. On the report [recon_ap.py] builds with the balances [aug] and
    [sep], the percentage a run reads is [(sep - aug) / aug * 100],
    calculated in floating point from the floats of the two cells, or 0
    when the August balance is a zero; and the run ends within the
    threshold, leaving the report as built, exactly when the absolute value
    of that float is at most 10.0. The rounding decides at the boundary:
    from 100.1 to 110.11 the calculated percentage is 10.000000000000005,
    and the run investigates. *)
Theorem built_report_gate (w : world) (statement_total aug sep : Q) :
  read_mom_percentage (build_excel statement_total aug sep)
  = calculated_percentage aug sep /\
  (main w (build_excel statement_total aug sep)
   = (build_excel statement_total aug sep, WithinThreshold)
   <-> fle (fabs (calculated_percentage aug sep)) (lit 10) = true) /\
  calculated_percentage 100.1 110.11 = lit 10.000000000000005 /\
  fle (fabs (calculated_percentage 100.1 110.11)) (lit 10) = false /\
  calculated_percentage 8999999999999999 8099999999999999 = lit (-10) /\
  calculated_percentage 100000 140000 = lit 40.
Proof.
  split; [apply built_percentage|]. split.
  - unfold main, main_with. rewrite clear_built_report, built_percentage.
    change THRESHOLD_PERCENT with (lit 10).
    destruct (fle (fabs (calculated_percentage aug sep)) (lit 10)).
    + split; reflexivity.
    + split; [|discriminate]. intros [= H]. 
  - repeat split; vm_compute; reflexivity.
Qed.

(** ** What the narrative is when there is no narrative *)

Definition missing_key_message : string :=
  "Error: OpenAI API key not found in environment variables".

Lemma missing_key_message_accepted :
  check_string missing_key_message = Ok missing_key_message.
Proof. vm_compute. reflexivity. Qed.

(** X12. When the API key is missing or empty and the run goes past the
    threshold, the run ends normally and the Reason entry of the report is
    the fixed text saying so, whatever the narrative service would
    answer. *)
Theorem missing_key_is_reported (w : world) (f : report) :
  let f' := clear_previous_reason f in
  has_key w = false ->
  fgt (fabs (read_mom_percentage f')) THRESHOLD_PERCENT = true ->
  main w f = (update_excel_with_reason missing_key_message f',
              Investigated missing_key_message) /\
  has_reason (main w f).1 missing_key_message.
Proof.
  intros f' Hkey Hgt.
  assert (Hreason : run_reason w f' = missing_key_message)
    by (unfold run_reason, generate_investigation_reason; rewrite Hkey;
        reflexivity).
  assert (Hrun : main w f
                 = (update_excel_with_reason missing_key_message f',
                    Investigated missing_key_message)).
  { rewrite <- Hreason. unfold main, main_with. fold f'.
    rewrite (fgt_not_fle _ _ Hgt). reflexivity. }
  split; [exact Hrun|]. rewrite Hrun. cbn [fst].
  destruct (above_threshold_loads THRESHOLD_PERCENT f' eq_refl Hgt) as [ws Hws].
  exact (update_writes_reason _ _ _ _ Hws missing_key_message_accepted).
Qed.

Definition keyless_world : world := {|
  OPENAI_API_KEY := None;
  read_ap_summary := fun _ => "";
  read_reconciliation_detail := fun _ => "";
  read_september_gl_entries := "";
  read_emails_for_investigation := "";
  chat_completion := fun _ => Completion (Some "Invoices were received late.")
|}.

Lemma missing_key_is_reported_witness :
  main keyless_world (build_excel 125000 100000 140000)
  = (update_excel_with_reason missing_key_message
       (build_excel 125000 100000 140000),
     Investigated missing_key_message).
Proof.
  apply (missing_key_is_reported keyless_world (build_excel 125000 100000 140000)).
  - reflexivity.
  - vm_compute. reflexivity.
Defined.

Lemma lstrip_blank (space : ascii -> bool) (s : string) :
  str_all space s = true -> lstrip_with space s = EmptyString.
Proof.
  induction s as [|c s IH]; [reflexivity|].
  cbn [str_all lstrip_with]. intros H. apply andb_true_iff in H as [-> H].
  exact (IH H).
Qed.

(** X13. When the service answers with a text of white space only, the
    narrative is the empty text, not the message that no analysis could be
    generated: that message is kept for an answer without content. *)
Theorem blank_completion_gives_empty_reason (w : world) (mom_percent : pyfloat)
    (summary detail sept_gl emails content : string) :
  has_key w = true ->
  chat_completion w (build_prompt mom_percent summary detail sept_gl emails)
  = Completion (Some content) ->
  nonempty content = true ->
  str_all chr_isspace content = true ->
  generate_investigation_reason w mom_percent summary detail sept_gl emails
  = EmptyString.
Proof.
  intros Hkey Hcall Hnonempty Hblank.
  unfold generate_investigation_reason. rewrite Hkey, Hcall, Hnonempty.
  cbn [negb]. unfold strip, strip_with.
  rewrite (lstrip_blank chr_isspace content Hblank). reflexivity.
Qed.

Definition blank_world : world := {|
  OPENAI_API_KEY := Some "sk-demo";
  read_ap_summary := fun _ => "";
  read_reconciliation_detail := fun _ => "";
  read_september_gl_entries := "";
  read_emails_for_investigation := "";
  chat_completion := fun _ => Completion (Some "   ")
|}.

Lemma blank_completion_gives_empty_reason_witness :
  generate_investigation_reason blank_world (lit 40) "" "" "" "" = EmptyString.
Proof.
  apply (blank_completion_gives_empty_reason blank_world (lit 40) "" "" "" ""
           "   "); reflexivity.
Defined.

Lemma substring_prefix (n : nat) (s : string) :
  String.length (String.substring 0 n s) = Nat.min n (String.length s) /\
  exists rest, s = String.substring 0 n s ++ rest.
Proof.
  revert s. induction n as [|n IH]; intros s.
  - destruct s; (split; [reflexivity | eexists; reflexivity]).
  - destruct s as [|c s]; [split; [reflexivity | exists EmptyString; reflexivity]|].
    destruct (IH s) as [Hlen [rest Hrest]].
    change (String.substring 0 (S n) (String c s))
      with (String c (String.substring 0 n s)).
    split.
    + change (String.length (String c (String.substring 0 n s)))
        with (S (String.length (String.substring 0 n s))).
      rewrite Hlen. reflexivity.
    + exists rest.
      change (String c (String.substring 0 n s) ++ rest)
        with (String c (String.substring 0 n s ++ rest)).
      rewrite <- Hrest. reflexivity.
Qed.

(** X14. The e-mail text of the request is the first 1500 characters of
    the e-mails read, all of them when there are fewer. *)
Theorem prompt_emails_bounded (mom_percent : pyfloat)
    (summary detail sept_gl emails : string) :
  let sent :=
    email_content (build_prompt mom_percent summary detail sept_gl emails) in
  String.length sent = Nat.min 1500 (String.length emails) /\
  exists rest, emails = sent ++ rest.
Proof. exact (substring_prefix 1500 emails). Qed.

(** ** What the percentage is read from *)

Lemma find_mom_ext (ws ws' : sheet) (rows : list nat) :
  (forall row, In row rows ->
     value ws row 1 = value ws' row 1 /\ value ws row 2 = value ws' row 2) ->
  find_mom ws rows = find_mom ws' rows.
Proof.
  induction rows as [|row rows IH]; intros H; [reflexivity|].
  cbn [find_mom]. destruct (H row (or_introl eq_refl)) as [-> ->].
  rewrite IH by (intros r Hr; apply H; right; exact Hr). reflexivity.
Qed.

Lemma read_balances_ext (ws ws' : sheet) (rows : list nat)
    (aug sep : option pyfloat) :
  (forall row, In row rows ->
     value ws row 1 = value ws' row 1 /\ value ws row 2 = value ws' row 2) ->
  read_balances ws rows aug sep = read_balances ws' rows aug sep.
Proof.
  revert aug sep. induction rows as [|row rows IH]; intros aug sep H;
    [reflexivity|].
  cbn [read_balances]. destruct (H row (or_introl eq_refl)) as [-> ->].
  assert (Hrest : forall a b, read_balances ws rows a b = read_balances ws' rows a b)
    by (intros a b; apply IH; intros r Hr; apply H; right; exact Hr).
  destruct (is_str "GL Balance August" (value ws' row 1)).
  - destruct (balance_of (value ws' row 2)); [|reflexivity].
    rewrite !bind_Ok. apply Hrest.
  - destruct (is_str "GL Balance September" (value ws' row 1)); [|apply Hrest].
    destruct (balance_of (value ws' row 2)); [|reflexivity].
    rewrite !bind_Ok. apply Hrest.
Qed.

(** X15. The percentage is read from columns A and B of the rows 1..19
    alone: two workbooks whose summary sheets agree on these cells give the
    same percentage, so a "MoM % Change" or a balance stored in row 20 or
    below is not seen. *)
Theorem read_mom_percentage_window (ws ws' : sheet) :
  (forall row, 1 <= row <= 19 ->
     ws !! (row, 1) = ws' !! (row, 1) /\ ws !! (row, 2) = ws' !! (row, 2)) ->
  read_mom_percentage (Workbook (Some ws))
  = read_mom_percentage (Workbook (Some ws')).
Proof.
  intros Hsame. unfold read_mom_percentage.
  rewrite (read_mom_percentage_try_loaded (Workbook (Some ws)) _ _ eq_refl eq_refl).
  rewrite (read_mom_percentage_try_loaded (Workbook (Some ws')) _ _ eq_refl eq_refl).
  assert (Hvalue : forall data_only row, In row (seq 1 19) ->
            value (omap (view data_only) ws) row 1
            = value (omap (view data_only) ws') row 1 /\
            value (omap (view data_only) ws) row 2
            = value (omap (view data_only) ws') row 2).
  { intros data_only row Hrow. apply in_seq in Hrow.
    destruct (Hsame row ltac:(lia)) as [H1 H2].
    unfold value. rewrite !lookup_omap, H1, H2. split; reflexivity. }
  rewrite (find_mom_ext _ _ _ (Hvalue true)). unfold calculate_manually.
  rewrite (read_balances_ext _ _ _ None None (Hvalue false)). reflexivity.
Qed.

Lemma read_mom_percentage_window_witness :
  read_mom_percentage
    (Workbook (Some (<[(20, 1) := Const (VStr "MoM % Change")]>
                       (<[(20, 2) := Const (VNum 99)]>
                          (built_summary 125000 100000 140000)))))
  = read_mom_percentage (build_excel 125000 100000 140000).
Proof.
  apply read_mom_percentage_window. intros row Hrow.
  rewrite !lookup_insert_ne by cell_ne. split; reflexivity.
Defined.

(** X16. A percentage that is not a number passes the gate of every
    threshold: when the percentage cell of the cleared report holds a text
    that [float] reads as NaN, such as "nan", the run asks for a narrative
    and updates the report, whatever the threshold. *)
Theorem nan_percentage_is_investigated (t : pyfloat) (w : world) (f : report)
    (ws : sheet) (row : nat) (text : string) :
  clear_previous_reason f = Workbook (Some ws) ->
  precomputed (omap (view true) ws) row (VStr text) ->
  float_of_str (strip (remove "%" text)) = Ok NaN ->
  main_with t w f
  = (update_excel_with_reason (run_reason w (clear_previous_reason f))
       (clear_previous_reason f),
     Investigated (run_reason w (clear_previous_reason f))).
Proof.
  intros Hclear (Hrow & Hlabel & Hv & Hbefore) Hfloat.
  assert (Hnan : read_mom_percentage (clear_previous_reason f) = NaN).
  { rewrite Hclear. unfold read_mom_percentage.
    rewrite (read_mom_percentage_try_loaded (Workbook (Some ws)) _ _
               eq_refl eq_refl).
    rewrite (find_mom_first _ 19 1 row (VStr text))
      by (lia || assumption || (intros; apply Hbefore; [lia|assumption])).
    unfold unpercent, float_of. rewrite Hfloat. reflexivity. }
  unfold main_with, run_reason. rewrite Hnan. reflexivity.
Qed.

(** The report as built, with the percentage cell typed over by "nan". *)
Definition typed_nan : report :=
  Workbook (Some (<[(7, 2) := Const (VStr "nan")]>
                    (built_summary 125000 100000 100000))).

Lemma nan_percentage_is_investigated_witness :
  main_with (Inf false) demo_world typed_nan
  = (update_excel_with_reason "Invoices were received late."
       (clear_previous_reason typed_nan),
     Investigated "Invoices were received late.").
Proof.
  apply (nan_percentage_is_investigated (Inf false) demo_world typed_nan
           (<[(7, 2) := Const (VStr "nan")]> (built_summary 125000 100000 100000))
           7 "nan").
  - vm_compute. reflexivity.
  - split; [lia|]. split; [vm_compute; reflexivity|].
    split; [vm_compute; reflexivity|].
    intros r Hr.
    do 7 (destruct r as [|r]; [try lia; vm_compute; congruence|]). lia.
  - vm_compute. reflexivity.
Defined.

(** ** A second run decides as the first *)

(** A column A cell that is no label the reading looks for. *)
Definition label_free (c : option cell) : Prop :=
  match c with
  | None => True
  | Some (Const v) =>
      is_mom_label (Some v) = false /\
      is_str "GL Balance August" (Some v) = false /\
      is_str "GL Balance September" (Some v) = false
  | Some (Formula _ _) => False
  end.

Lemma label_free_values (data_only : bool) (ws : sheet) (row : nat) :
  label_free (ws !! (row, 1)) ->
  is_mom_label (value (omap (view data_only) ws) row 1) = false /\
  is_str "GL Balance August" (value (omap (view data_only) ws) row 1) = false /\
  is_str "GL Balance September" (value (omap (view data_only) ws) row 1) = false.
Proof.
  unfold value. rewrite lookup_omap.
  destruct (ws !! (row, 1)) as [[v|body cached]|]; cbn [label_free];
    [intros H; exact H | contradiction | intros _; repeat split].
Qed.

Lemma reason_label_free (c : option cell) :
  is_reason_label (cell_value <$> c) = true -> label_free c.
Proof.
  destruct c as [[v|body cached]|]; cbn; try discriminate.
  destruct v as [s| | | |]; try discriminate.
  intros H. apply andb_true_iff in H as [_ H]. apply String.eqb_eq in H.
  revert H.
  destruct s as [|c1 [|c2 [|c3 [|c4 [|c5 [|c6 [|c7 s]]]]]]]; try discriminate.
  intros _. cbn. rewrite !andb_false_r.
  repeat split; try reflexivity; repeat case_match; reflexivity.
Qed.

Lemma falsy_label_free (c : option cell) :
  truthy (cell_value <$> c) = false -> label_free c.
Proof.
  destruct c as [[v|body cached]|]; cbn; try discriminate; [|trivial].
  destruct v as [s| | | |]; [|repeat split..].
  destruct s; [repeat split | discriminate].
Qed.

Lemma find_mom_rel (ws ws' : sheet) (rows : list nat) :
  (forall row, In row rows ->
     (value ws row 1 = value ws' row 1 /\ value ws row 2 = value ws' row 2) \/
     (is_mom_label (value ws row 1) = false /\
      is_mom_label (value ws' row 1) = false)) ->
  find_mom ws rows = find_mom ws' rows.
Proof.
  induction rows as [|row rows IH]; intros H; [reflexivity|].
  cbn [find_mom].
  rewrite IH by (intros r Hr; apply H; right; exact Hr).
  destruct (H row (or_introl eq_refl)) as [[-> ->]|[-> ->]]; reflexivity.
Qed.

Lemma read_balances_rel (ws ws' : sheet) (rows : list nat)
    (aug sep : option pyfloat) :
  (forall row, In row rows ->
     (value ws row 1 = value ws' row 1 /\ value ws row 2 = value ws' row 2) \/
     ((is_str "GL Balance August" (value ws row 1) = false /\
       is_str "GL Balance September" (value ws row 1) = false) /\
      (is_str "GL Balance August" (value ws' row 1) = false /\
       is_str "GL Balance September" (value ws' row 1) = false))) ->
  read_balances ws rows aug sep = read_balances ws' rows aug sep.
Proof.
  revert aug sep. induction rows as [|row rows IH]; intros aug sep H;
    [reflexivity|].
  assert (Hrest : forall a b, read_balances ws rows a b = read_balances ws' rows a b)
    by (intros a b; apply IH; intros r Hr; apply H; right; exact Hr).
  cbn [read_balances].
  destruct (H row (or_introl eq_refl)) as [[-> ->]|[[-> ->] [-> ->]]];
    [|apply Hrest].
  destruct (is_str "GL Balance August" (value ws' row 1)).
  - destruct (balance_of (value ws' row 2)); [|reflexivity].
    rewrite !bind_Ok. apply Hrest.
  - destruct (is_str "GL Balance September" (value ws' row 1)); [|apply Hrest].
    destruct (balance_of (value ws' row 2)); [|reflexivity].
    rewrite !bind_Ok. apply Hrest.
Qed.

(** Two sheets that differ, in rows 1..19, only in rows whose column A
    holds no label of the reading, give the same percentage. *)
Lemma reading_rel (ws ws' : sheet) :
  (forall row, 1 <= row <= 19 ->
     (ws !! (row, 1) = ws' !! (row, 1) /\ ws !! (row, 2) = ws' !! (row, 2)) \/
     (label_free (ws !! (row, 1)) /\ label_free (ws' !! (row, 1)))) ->
  read_mom_percentage (Workbook (Some ws))
  = read_mom_percentage (Workbook (Some ws')).
Proof.
  intros Hrel. unfold read_mom_percentage.
  rewrite (read_mom_percentage_try_loaded (Workbook (Some ws)) _ _ eq_refl eq_refl).
  rewrite (read_mom_percentage_try_loaded (Workbook (Some ws')) _ _ eq_refl eq_refl).
  rewrite (find_mom_rel (omap (view true) ws) (omap (view true) ws')).
  - unfold calculate_manually.
    rewrite (read_balances_rel (omap (view false) ws) (omap (view false) ws'));
      [reflexivity|].
    intros row Hrow. apply in_seq in Hrow.
    destruct (Hrel row ltac:(lia)) as [[H1 H2]|[H1 H2]].
    + left. unfold value. rewrite !lookup_omap, H1, H2. split; reflexivity.
    + right. destruct (label_free_values false ws row H1) as (_ & ? & ?).
      destruct (label_free_values false ws' row H2) as (_ & ? & ?).
      repeat split; assumption.
  - intros row Hrow. apply in_seq in Hrow.
    destruct (Hrel row ltac:(lia)) as [[H1 H2]|[H1 H2]].
    + left. unfold value. rewrite !lookup_omap, H1, H2. split; reflexivity.
    + right. destruct (label_free_values true ws row H1) as (? & _).
      destruct (label_free_values true ws' row H2) as (? & _).
      split; assumption.
Qed.

Lemma reading_cleared (ws : sheet) :
  read_mom_percentage (Workbook (Some (reason_cleared ws)))
  = read_mom_percentage (Workbook (Some ws)).
Proof.
  apply reading_rel. intros row Hrow. unfold reason_cleared.
  destruct (find_reason ws (seq 1 49)) as [r|] eqn:Hfind;
    [|left; split; reflexivity].
  apply find_reason_some in Hfind as [_ Hlabel]. unfold assign.
  destruct (decide (row = r)) as [->|Hne].
  - right. rewrite lookup_delete_ne by cell_ne. rewrite lookup_delete_eq.
    split; [exact I | exact (reason_label_free _ Hlabel)].
  - left. rewrite !lookup_delete_ne by cell_ne. split; reflexivity.
Qed.

Lemma reading_written (reason : string) (ws : sheet) :
  read_mom_percentage (Workbook (Some (reason_written reason ws)))
  = read_mom_percentage (Workbook (Some ws)).
Proof.
  apply reading_rel. intros row Hrow. unfold reason_written.
  destruct (find_reason ws (seq 1 49)) as [r|] eqn:Hfind.
  - apply find_reason_some in Hfind as [_ Hlabel]. unfold assign.
    destruct (decide (row = r)) as [->|Hne].
    + right. rewrite lookup_insert_ne by cell_ne.
      split; exact (reason_label_free _ Hlabel).
    + left. rewrite !lookup_insert_ne by cell_ne. split; reflexivity.
  - cbv zeta. unfold assign.
    destruct (last_data_row_seq ws 49 1 1) as [_ Hafter]. cbv zeta in Hafter.
    destruct (decide (row = last_data_row ws (seq 1 49) 1 + 1)) as [Hrow'|Hne].
    + right. rewrite <- Hrow'. rewrite lookup_insert_ne by cell_ne.
      rewrite lookup_insert_eq. split.
      * cbn. repeat split.
      * apply falsy_label_free. apply Hafter; lia.
    + left. rewrite !lookup_insert_ne by cell_ne. split; reflexivity.
Qed.

Lemma reading_after_run (t : pyfloat) (w : world) (f : report) :
  read_mom_percentage (clear_previous_reason (main_with t w f).1)
  = read_mom_percentage (clear_previous_reason f).
Proof.
  destruct f as [|[ws|]].
  - unfold main_with. destruct (fle _ _); reflexivity.
  - rewrite (clear_loaded ws). pose proof (plain_load ws) as Hplain.
    unfold main_with. rewrite (clear_loaded ws).
    set (W := omap (view false) ws) in *. clearbody W.
    rewrite (clear_plain W Hplain).
    assert (Hc : plain (reason_cleared W))
      by (unfold reason_cleared; destruct (find_reason _ _);
          repeat apply plain_assign; exact Hplain).
    destruct (fle _ _); cbn [fst];
      [rewrite (clear_plain _ Hc); apply reading_cleared|].
    destruct (check_string
                (generate_investigation_reason w
                   (read_mom_percentage (Workbook (Some (reason_cleared W))))
                   (read_ap_summary w (Workbook (Some (reason_cleared W))))
                   (read_reconciliation_detail w (Workbook (Some (reason_cleared W))))
                   (read_september_gl_entries w) (read_emails_for_investigation w)))
      as [text|e] eqn:Hcheck.
    + rewrite (update_plain _ text _ Hc Hcheck).
      rewrite (clear_plain _ (reason_written_plain _ _ Hc)).
      rewrite reading_cleared. apply reading_written.
    + rewrite (update_refused _ _ _ Hcheck).
      rewrite (clear_plain _ Hc). apply reading_cleared.
  - unfold main_with. destruct (fle _ _); reflexivity.
Qed.

(** X17. A run leaves the percentage as it found it: after a run, the
    percentage read from the cleared report is the one the run read, so a
    second run with the same threshold ends within the threshold exactly
    when the first did. *)
Theorem second_run_decides_alike (t : pyfloat) (w w' : world) (f : report) :
  read_mom_percentage (clear_previous_reason (main_with t w f).1)
  = read_mom_percentage (clear_previous_reason f) /\
  ((main_with t w' (main_with t w f).1).2 = WithinThreshold <->
   (main_with t w f).2 = WithinThreshold).
Proof.
  pose proof (reading_after_run t w f) as Hsame.
  split; [exact Hsame|].
  unfold main_with at 1 3. rewrite Hsame.
  destruct (fle _ _); cbn [snd]; split; intros H; (reflexivity || discriminate H).
Qed.

End InvestigatorMore.
